(** * claninfo.py: flattener, fetcher and CSV writer

    A shallow embedding of [src/claninfo.py] and the properties of its three
    stages: [_flatten_json] (JSON tree to named buckets of rows),
    [fetch_clan_data_auto_tables] (URL construction and the retry loop) and
    [save_tables_to_csv] (file-name sanitisation and the empty-table skip).

    Conventions of the embedding.
    - A Python [str] is a list of Unicode code points ([N]).
    - A Python [dict] is an association list in insertion order; [d[k] = v]
      is [Py.dict_set].  A [defaultdict(list)] is the same with
      [Py.dd_append] for [d[k].append(x)].
    - Mutation of the shared accumulator [out] is explicit state passing.
    - The network, the clock and exceptions are a small state-and-error
      monad over a trace of the requests issued and the sleeps taken.
      Output on stdout is not part of the trace.
    - The back-off base and the waits are exact rationals ([Q]); binary64
      rounding is outside the model.  A wait too long for [time.sleep] is an
      [OverflowError], as is a power that leaves the float range. *)

From Stdlib Require Import List ZArith NArith String Ascii Bool Lia.
From Stdlib Require Import QArith Qpower Qround DecimalString.
From Stdlib Require Import Floats.SpecFloat.
Import ListNotations.

(* ================================================================== *)
(** * Python built-ins used by the program *)

Module Py.

(** [str]: a sequence of code points. *)
Definition str := list N.

(** A literal of the source, written as a Rocq string of 7-bit characters. *)
Definition lit (s : string) : str :=
  map N_of_ascii (list_ascii_of_string s).

Definition str_eqb (a b : str) : bool :=
  if list_eq_dec N.eq_dec a b then true else false.

(** [s.replace(old, new)] for a one-character [old]. *)
Definition replace_char (old : N) (new : str) (s : str) : str :=
  flat_map (fun c => if N.eqb c old then new else [c]) s.

(** [s[:n]] for [n >= 0]. *)
Definition slice_to (n : nat) (s : str) : str := firstn n s.

(** [str(i)] for an [int]. *)
Definition str_of_int (i : Z) : str :=
  lit (NilZero.string_of_int (Z.to_int i)).

(** [dict]: keys with their values, in insertion order. *)
Definition dict (V : Type) := list (str * V).

Fixpoint dict_get {V} (d : dict V) (k : str) : option V :=
  match d with
  | [] => None
  | (k', v) :: rest => if str_eqb k' k then Some v else dict_get rest k
  end.

(** [d[k] = v]: an existing key keeps its place, a new key goes last. *)
Fixpoint dict_set {V} (d : dict V) (k : str) (v : V) : dict V :=
  match d with
  | [] => [(k, v)]
  | (k', v') :: rest =>
      if str_eqb k' k then (k', v) :: rest
      else (k', v') :: dict_set rest k v
  end.

Definition keys {V} (d : dict V) : list str := map fst d.

(** [d[k].append(x)] on a [defaultdict(list)]: a missing key is created
    with the empty list, last in the order, and then appended to. *)
Fixpoint dd_append {V} (d : dict (list V)) (k : str) (x : V) : dict (list V) :=
  match d with
  | [] => [(k, [x])]
  | (k', xs) :: rest =>
      if str_eqb k' k then (k', xs ++ [x]) :: rest
      else (k', xs) :: dd_append rest k x
  end.

(** [range(1, n + 1)]. *)
Definition range1 (n : Z) : list Z :=
  map Z.of_nat (seq 1 (Z.to_nat n)).

End Py.

Abbreviation pystr := Py.str.
Notation "s1 +++ s2" := (@app N s1 s2) (at level 60, right associativity).

(* ================================================================== *)
(** * JSON values, as [response.json()] returns them *)

Unset Elimination Schemes.
Inductive json : Type :=
| JNull
| JBool (b : bool)
| JInt (z : Z)
| JFloat (f : spec_float)
| JStr (s : pystr)
| JList (items : list json)
| JDict (items : Py.dict json).
Set Elimination Schemes.

(** [isinstance(v, (dict, list))] *)
Definition is_dict_or_list (v : json) : bool :=
  match v with
  | JList _ | JDict _ => true
  | _ => false
  end.

(** A row is the [dict] built at line 57; a bucket is a list of rows;
    [tables] is the [defaultdict(list)] [out], from table names to
    buckets. *)
Definition row := Py.dict json.
Definition tables := Py.dict (list row).

(* ================================================================== *)
(** * The flattener: [_flatten_json] (lines 44-71) *)

(** The [for k, v in obj.items()] loop of lines 58-62, with the recursive
    call as a parameter; it threads the row under construction and [out]. *)
Definition flatten_items (rec : json -> pystr -> tables -> tables)
    (parent_key : pystr) : Py.dict json -> row -> tables -> row * tables :=
  fix loop (items : Py.dict json) (r : row) (out : tables) : row * tables :=
    match items with
    | [] => (r, out)
    | (k, v) :: rest =>
        if is_dict_or_list v
        then loop rest r (rec v (parent_key +++ Py.lit "." +++ k) out)
        else loop rest (Py.dict_set r k v) out
    end.

(** The [for item in obj] loop of lines 68-69. *)
Definition flatten_list (rec : json -> pystr -> tables -> tables)
    (parent_key : pystr) : list json -> tables -> tables :=
  fix loop (items : list json) (out : tables) : tables :=
    match items with
    | [] => out
    | item :: rest => loop rest (rec item parent_key out)
    end.

(** Lines 56-71 for an accumulator that is already a mapping. *)
Fixpoint flatten_into (obj : json) (parent_key : pystr) (out : tables)
    {struct obj} : tables :=
  match obj with
  | JDict items =>
      let '(r, out') := flatten_items flatten_into parent_key items [] out in
      match r with
      | [] => out'
      | _ :: _ => Py.dd_append out' parent_key r
      end
  | JList items => flatten_list flatten_into parent_key items out
  | _ => out
  end.

(** [_flatten_json(obj, parent_key, out)]; [None] is the default [out],
    replaced by a fresh [defaultdict(list)] at lines 53-54.  [Some o] is a
    [defaultdict(list)] handed in by the caller, as the recursive calls of
    lines 60 and 69 do.  A plain [dict] as [out] is not covered: for it
    line 65 raises [KeyError] on a table name it lacks. *)
Definition _flatten_json (obj : json) (parent_key : pystr)
    (out : option tables) : tables :=
  flatten_into obj parent_key
    match out with
    | None => []
    | Some o => o
    end.

(** The default [parent_key]. *)
Definition root : pystr := Py.lit "root".

(* ================================================================== *)
(** * What the flattener appends, in order *)

(** The row of an object: its scalar fields, assigned one by one
    ([row[k] = v], line 62) starting from the row [r]. *)
Fixpoint scalar_fields (items : Py.dict json) (r : row) : row :=
  match items with
  | [] => r
  | (k, v) :: rest =>
      if is_dict_or_list v then scalar_fields rest r
      else scalar_fields rest (Py.dict_set r k v)
  end.

(** The appends [out[name].append(row)] one call performs, as the list of
    (table name, row) pairs in the order they happen. *)
Fixpoint appends (obj : json) (parent_key : pystr) {struct obj}
    : list (pystr * row) :=
  match obj with
  | JDict items =>
      flat_map (fun kv =>
                  if is_dict_or_list (snd kv)
                  then appends (snd kv) (parent_key +++ Py.lit "." +++ fst kv)
                  else []) items
      ++ match scalar_fields items [] with
         | [] => []
         | r => [(parent_key, r)]
         end
  | JList items => flat_map (fun item => appends item parent_key) items
  | _ => []
  end.

Definition append_all (out : tables) (es : list (pystr * row)) : tables :=
  fold_left (fun o e => Py.dd_append o (fst e) (snd e)) es out.

(** The rows of a table; a name that is not a key has none. *)
Definition rows_of (out : tables) (name : pystr) : list row :=
  match Py.dict_get out name with
  | Some rows => rows
  | None => []
  end.

(** Induction on JSON values, through lists and objects. *)
Definition json_ind (P : json -> Prop)
    (HNull : P JNull) (HBool : forall b, P (JBool b))
    (HInt : forall z, P (JInt z)) (HFloat : forall f, P (JFloat f))
    (HStr : forall s, P (JStr s))
    (HList : forall items, Forall P items -> P (JList items))
    (HDict : forall items, Forall (fun kv => P (snd kv)) items -> P (JDict items))
    : forall j, P j :=
  fix go (j : json) : P j :=
    match j with
    | JNull => HNull
    | JBool b => HBool b
    | JInt z => HInt z
    | JFloat f => HFloat f
    | JStr s => HStr s
    | JList items =>
        HList items
          ((fix all (l : list json) : Forall P l :=
              match l with
              | [] => Forall_nil _
              | x :: l' => Forall_cons x (go x) (all l')
              end) items)
    | JDict items =>
        HDict items
          ((fix all (l : Py.dict json) : Forall (fun kv => P (snd kv)) l :=
              match l with
              | [] => Forall_nil _
              | kv :: l' => Forall_cons kv (go (snd kv)) (all l')
              end) items)
    end.

(* ------------------------------------------------------------------ *)
(** ** Strings and dictionaries *)

Lemma str_eqb_eq (a b : pystr) : Py.str_eqb a b = true <-> a = b.
Proof.
  unfold Py.str_eqb. destruct (list_eq_dec N.eq_dec a b); split; congruence.
Qed.

Lemma str_eqb_refl (a : pystr) : Py.str_eqb a a = true.
Proof. now apply str_eqb_eq. Qed.

Lemma str_eqb_neq (a b : pystr) : Py.str_eqb a b = false <-> a <> b.
Proof.
  unfold Py.str_eqb. destruct (list_eq_dec N.eq_dec a b); split; congruence.
Qed.

Lemma dict_set_fresh {V} (d : Py.dict V) k (v : V) :
  ~ In k (Py.keys d) -> Py.dict_set d k v = d ++ [(k, v)].
Proof.
  induction d as [|[k' v'] d IH]; simpl; intros Hk; [reflexivity|].
  destruct (Py.str_eqb k' k) eqn:E.
  - apply str_eqb_eq in E. tauto.
  - rewrite IH by tauto. reflexivity.
Qed.

Lemma dict_set_not_nil {V} (d : Py.dict V) k (v : V) : Py.dict_set d k v <> [].
Proof.
  destruct d as [|[k' v'] d]; simpl; [discriminate|].
  destruct (Py.str_eqb k' k); discriminate.
Qed.

Lemma dd_append_get {V} (d : Py.dict (list V)) k (x : V) name :
  Py.dict_get (Py.dd_append d k x) name =
    if Py.str_eqb k name
    then Some (match Py.dict_get d name with Some xs => xs | None => [] end ++ [x])
    else Py.dict_get d name.
Proof.
  induction d as [|[k' xs] d IH]; simpl.
  - destruct (Py.str_eqb k name); reflexivity.
  - destruct (Py.str_eqb k' k) eqn:E; simpl.
    + apply str_eqb_eq in E. subst k'.
      destruct (Py.str_eqb k name); reflexivity.
    + destruct (Py.str_eqb k' name) eqn:E'; [|exact IH].
      apply str_eqb_eq in E'. subst k'.
      destruct (Py.str_eqb k name) eqn:E2; [|reflexivity].
      apply str_eqb_eq in E2. apply str_eqb_neq in E. congruence.
Qed.

Lemma dd_append_keys_in {V} (d : Py.dict (list V)) k (x : V) name :
  In name (Py.keys (Py.dd_append d k x)) <-> In name (Py.keys d) \/ name = k.
Proof.
  induction d as [|[k' xs] d IH]; simpl.
  - intuition.
  - destruct (Py.str_eqb k' k) eqn:E; simpl.
    + apply str_eqb_eq in E. subst k'. intuition.
    + rewrite IH. intuition.
Qed.

(* ------------------------------------------------------------------ *)
(** ** The flattener performs exactly its appends *)

(** The rows a list of appends sends to the table [name]. *)
Definition sent_to (name : pystr) (es : list (pystr * row)) : list row :=
  map snd (filter (fun e => Py.str_eqb (fst e) name) es).

Lemma sent_to_app name es1 es2 :
  sent_to name (es1 ++ es2) = sent_to name es1 ++ sent_to name es2.
Proof. unfold sent_to. now rewrite filter_app, map_app. Qed.

Lemma sent_to_nil_iff name es : sent_to name es = [] <-> ~ In name (map fst es).
Proof.
  induction es as [|[n r] es IH]; simpl; [tauto|].
  unfold sent_to in *. simpl.
  destruct (Py.str_eqb n name) eqn:E; simpl.
  - apply str_eqb_eq in E. split; [discriminate|tauto].
  - apply str_eqb_neq in E. rewrite IH. intuition.
Qed.

Lemma append_all_get out es name :
  Py.dict_get (append_all out es) name =
    match sent_to name es with
    | [] => Py.dict_get out name
    | rs => Some (rows_of out name ++ rs)
    end.
Proof.
  revert out. induction es as [|[n r] es IH]; intros out; [reflexivity|].
  unfold append_all in *. simpl. rewrite IH. unfold rows_of, sent_to. simpl.
  rewrite !dd_append_get.
  destruct (Py.str_eqb n name); simpl.
  - destruct (map snd _); [reflexivity|]. now rewrite <- app_assoc.
  - reflexivity.
Qed.

Lemma append_all_keys_in out es name :
  In name (Py.keys (append_all out es)) <->
  In name (Py.keys out) \/ In name (map fst es).
Proof.
  revert out. induction es as [|[n r] es IH]; intros out; simpl; [tauto|].
  unfold append_all in *. simpl. rewrite IH, dd_append_keys_in. intuition.
Qed.

Lemma append_all_app out es1 es2 :
  append_all out (es1 ++ es2) = append_all (append_all out es1) es2.
Proof. apply fold_left_app. Qed.

Lemma flatten_items_spec rec parent_key items :
  Forall (fun kv => forall p out, rec (snd kv) p out = append_all out (appends (snd kv) p))
         items ->
  forall r out,
    flatten_items rec parent_key items r out =
      (scalar_fields items r,
       append_all out
         (flat_map (fun kv =>
                      if is_dict_or_list (snd kv)
                      then appends (snd kv) (parent_key +++ Py.lit "." +++ fst kv)
                      else []) items)).
Proof.
  induction 1 as [|[k v] rest Hv _ IH]; intros r out; [reflexivity|].
  simpl in *. destruct (is_dict_or_list v).
  - rewrite IH, Hv, append_all_app. reflexivity.
  - rewrite IH. reflexivity.
Qed.

Lemma flatten_list_spec rec parent_key items :
  Forall (fun x => forall p out, rec x p out = append_all out (appends x p)) items ->
  forall out,
    flatten_list rec parent_key items out =
      append_all out (flat_map (fun item => appends item parent_key) items).
Proof.
  induction 1 as [|x rest Hx _ IH]; intros out; [reflexivity|].
  simpl. rewrite IH, Hx, append_all_app. reflexivity.
Qed.

Lemma flatten_into_appends obj :
  forall parent_key out,
    flatten_into obj parent_key out = append_all out (appends obj parent_key).
Proof.
  induction obj as [| | | | |items IH|items IH] using json_ind;
    intros parent_key out; try reflexivity.
  - simpl. now apply flatten_list_spec.
  - simpl. rewrite (flatten_items_spec flatten_into parent_key items IH), append_all_app.
    destruct (scalar_fields items []); reflexivity.
Qed.

Lemma flatten_json_appends obj parent_key :
  _flatten_json obj parent_key None = append_all [] (appends obj parent_key).
Proof. apply flatten_into_appends. Qed.

(* ------------------------------------------------------------------ *)
(** ** Objects with scalar fields only *)

(** No field is an object or an array. *)
Definition all_scalar (items : Py.dict json) : bool :=
  forallb (fun kv => negb (is_dict_or_list (snd kv))) items.

(** The keys of a [dict] are pairwise different. *)
Fixpoint distinct_keys {V} (d : Py.dict V) : bool :=
  match d with
  | [] => true
  | (k, _) :: rest =>
      negb (existsb (Py.str_eqb k) (Py.keys rest)) && distinct_keys rest
  end.

Lemma distinct_keys_NoDup {V} (d : Py.dict V) :
  distinct_keys d = true <-> NoDup (Py.keys d).
Proof.
  induction d as [|[k v] d IH]; simpl.
  - split; [constructor|reflexivity].
  - rewrite andb_true_iff, negb_true_iff, IH. split.
    + intros [Hk Hd]. constructor; [|exact Hd].
      intros Hin. apply not_true_iff_false in Hk. apply Hk.
      apply existsb_exists. exists k. split; [exact Hin|apply str_eqb_refl].
    + intros H. inversion H as [|? ? Hk Hd]; subst. split; [|exact Hd].
      apply not_true_iff_false. intros Hex.
      apply existsb_exists in Hex. destruct Hex as [k' [Hin E]].
      apply str_eqb_eq in E. subst. exact (Hk Hin).
Qed.

Lemma scalar_fields_all_scalar items :
  all_scalar items = true ->
  forall r, NoDup (Py.keys (r ++ items)) -> scalar_fields items r = r ++ items.
Proof.
  induction items as [|[k v] rest IH]; simpl; intros Hs r Hnd.
  - now rewrite app_nil_r.
  - apply andb_true_iff in Hs. destruct Hs as [Hv Hs].
    apply negb_true_iff in Hv. rewrite Hv.
    assert (Hk : ~ In k (Py.keys r)).
    { unfold Py.keys in *. rewrite map_app in Hnd. simpl in Hnd.
      apply NoDup_remove_2 in Hnd. rewrite in_app_iff in Hnd. tauto. }
    rewrite (dict_set_fresh r k v Hk), IH; trivial.
    + now rewrite <- app_assoc.
    + now rewrite <- app_assoc.
Qed.

Lemma scalar_fields_scalar_object items :
  all_scalar items = true -> distinct_keys items = true ->
  scalar_fields items [] = items.
Proof.
  intros Hs Hd. apply (scalar_fields_all_scalar items Hs []).
  now apply distinct_keys_NoDup.
Qed.

Lemma nested_appends_all_scalar items parent_key :
  all_scalar items = true ->
  flat_map (fun kv =>
              if is_dict_or_list (snd kv)
              then appends (snd kv) (parent_key +++ Py.lit "." +++ fst kv)
              else []) items = [].
Proof.
  induction items as [|[k v] rest IH]; simpl; intros Hs; [reflexivity|].
  apply andb_true_iff in Hs. destruct Hs as [Hv Hs].
  apply negb_true_iff in Hv. rewrite Hv. simpl. auto.
Qed.

(** What one scalar-only object appends: its own row, unless it is empty. *)
Lemma appends_scalar_object items parent_key :
  all_scalar items = true -> distinct_keys items = true ->
  appends (JDict items) parent_key =
    match items with
    | [] => []
    | _ :: _ => [(parent_key, items)]
    end.
Proof.
  intros Hs Hd. simpl.
  rewrite nested_appends_all_scalar, scalar_fields_scalar_object by assumption.
  destruct items; reflexivity.
Qed.

(** C1, amended: a non-empty object (distinct keys) whose fields are all
    scalar flattens, from the default path, to the single table "root" with
    the single row equal to the object: same keys, same values, same
    order. *)
Theorem flatten_scalar_object (items : Py.dict json) :
  items <> [] ->
  all_scalar items = true ->
  distinct_keys items = true ->
  _flatten_json (JDict items) root None = [(root, [items])].
Proof.
  intros Hne Hs Hd.
  rewrite flatten_json_appends, appends_scalar_object by assumption.
  destruct items; [congruence|reflexivity].
Qed.

Lemma flatten_scalar_object_witness :
  _flatten_json (JDict [(Py.lit "tag", JStr (Py.lit "#2PP")); (Py.lit "members", JInt 47)])
                root None
  = [(root, [[(Py.lit "tag", JStr (Py.lit "#2PP")); (Py.lit "members", JInt 47)]])].
Proof.
  apply flatten_scalar_object; [discriminate|reflexivity|reflexivity].
Defined.

(** C1 as stated fails at the empty object: all of its (zero) fields are
    scalar, and flattening it yields no table at all (the guard of line 64),
    not a "root" table holding one empty row. *)
Lemma flatten_empty_object_no_table :
  all_scalar [] = true /\ distinct_keys (V:=json) [] = true /\
  _flatten_json (JDict []) root None = [] /\
  _flatten_json (JDict []) root None <> [(root, [[]])].
Proof. repeat split; discriminate. Qed.

(* ------------------------------------------------------------------ *)
(** ** Table names are key paths *)

(** The path label after descending through the keys [ks] from [p]:
    each key appends ".key" (line 60). *)
Definition dot_join (p : pystr) (ks : list pystr) : pystr :=
  fold_left (fun acc k => acc +++ Py.lit "." +++ k) ks p.

(** [descends obj ks d]: the object [d] is met by the traversal of [obj]
    after descending through the keys [ks], in this order.  Entering the
    value of a field named [k] (an object or an array) consumes the key
    [k]; going from an array to one of its elements consumes nothing. *)
Inductive descends : json -> list pystr -> Py.dict json -> Prop :=
| descends_here d :
    descends (JDict d) [] d
| descends_element items x ks d :
    In x items -> descends x ks d -> descends (JList items) ks d
| descends_field items k v ks d :
    In (k, v) items -> is_dict_or_list v = true -> descends v ks d ->
    descends (JDict items) (k :: ks) d.

(** The object has at least one scalar field. *)
Definition has_scalar_field (d : Py.dict json) : bool :=
  existsb (fun kv => negb (is_dict_or_list (snd kv))) d.

(** [ks = [k1; ...; kn]] around [leaf]: {k1: {k2: ... {kn: leaf}}}. *)
Definition nest (ks : list pystr) (leaf : json) : json :=
  fold_right (fun k inner => JDict [(k, inner)]) leaf ks.

Lemma scalar_fields_not_nil d :
  forall r, scalar_fields d r <> [] <-> r <> [] \/ has_scalar_field d = true.
Proof.
  induction d as [|[k v] d IH]; simpl; intros r.
  - intuition discriminate.
  - destruct (is_dict_or_list v); simpl.
    + apply IH.
    + rewrite IH. pose proof (dict_set_not_nil r k v). intuition.
Qed.

Lemma appends_sound obj :
  forall p n r, In (n, r) (appends obj p) ->
    exists ks d, descends obj ks d /\ r = scalar_fields d [] /\ r <> [] /\
                 n = dot_join p ks.
Proof.
  induction obj as [| | | | |items IH|items IH] using json_ind;
    intros p n r Hin; simpl in Hin; try contradiction.
  - apply in_flat_map in Hin. destruct Hin as [x [Hx Hin]].
    rewrite Forall_forall in IH.
    destruct (IH x Hx _ _ _ Hin) as [ks [d [Hd Hrest]]].
    exists ks, d. split; [|exact Hrest]. econstructor; eassumption.
  - apply in_app_or in Hin. destruct Hin as [Hin|Hin].
    + apply in_flat_map in Hin. destruct Hin as [[k v] [Hkv Hin]]. simpl in Hin.
      destruct (is_dict_or_list v) eqn:Hv; [|contradiction].
      rewrite Forall_forall in IH.
      destruct (IH (k, v) Hkv _ _ _ Hin) as [ks [d [Hd [Hr [Hne Hn]]]]].
      exists (k :: ks), d. repeat split; trivial.
      econstructor; eassumption.
    + exists [], items. destruct (scalar_fields items []) eqn:E; [contradiction|].
      destruct Hin as [Hin|[]]. inversion Hin; subst.
      repeat split; [constructor|discriminate].
Qed.

Lemma appends_complete obj ks d :
  descends obj ks d ->
  forall p, scalar_fields d [] <> [] ->
    In (dot_join p ks, scalar_fields d []) (appends obj p).
Proof.
  induction 1 as [d|items x ks d Hx _ IH|items k v ks d Hkv Hv _ IH];
    intros p Hne; simpl.
  - apply in_or_app. right.
    destruct (scalar_fields d []); [congruence|now left].
  - apply in_flat_map. exists x. split; [exact Hx|now apply IH].
  - apply in_or_app. left. apply in_flat_map. exists (k, v). simpl.
    rewrite Hv. split; [exact Hkv|now apply IH].
Qed.

Lemma flatten_json_names obj parent_key name :
  In name (Py.keys (_flatten_json obj parent_key None)) <->
  exists ks d, descends obj ks d /\ has_scalar_field d = true /\
               name = dot_join parent_key ks.
Proof.
  rewrite flatten_json_appends, append_all_keys_in. simpl. split.
  - intros [[]|Hin]. apply in_map_iff in Hin. destruct Hin as [[n r] [Hn Hin]].
    simpl in Hn. subst n.
    destruct (appends_sound _ _ _ _ Hin) as [ks [d [Hd [Hr [Hne Hname]]]]].
    exists ks, d. repeat split; trivial.
    subst r. apply scalar_fields_not_nil in Hne. destruct Hne; congruence.
  - intros [ks [d [Hd [Hs Hname]]]]. right. subst name.
    apply in_map_iff. exists (dot_join parent_key ks, scalar_fields d []).
    split; [reflexivity|]. apply appends_complete; [exact Hd|].
    apply scalar_fields_not_nil. now right.
Qed.

Lemma appends_nest ks leaf :
  forall p, appends (nest ks (JDict leaf)) p = appends (JDict leaf) (dot_join p ks).
Proof.
  induction ks as [|k ks IH]; intros p; [reflexivity|].
  change (nest (k :: ks) (JDict leaf)) with (JDict [(k, nest ks (JDict leaf))]).
  assert (Hc : is_dict_or_list (nest ks (JDict leaf)) = true)
    by (destruct ks; reflexivity).
  cbn [appends flat_map scalar_fields fst snd]. rewrite Hc.
  rewrite !app_nil_r. apply IH.
Qed.

(** C3: a name is a table of the flattener's result exactly when it is the
    starting path followed by ".key" for each key descended through to an
    object that has a scalar field (array elements reuse the array's label,
    see [descends]); and an object nested under the keys k1 ... kn, however
    many, gives the one table "root.k1. ... .kn". *)
Theorem table_names_are_key_paths :
  (forall obj parent_key name,
      In name (Py.keys (_flatten_json obj parent_key None)) <->
      exists ks d, descends obj ks d /\ has_scalar_field d = true /\
                   name = dot_join parent_key ks)
  /\
  (forall ks leaf,
      leaf <> [] -> all_scalar leaf = true -> distinct_keys leaf = true ->
      _flatten_json (nest ks (JDict leaf)) root None = [(dot_join root ks, [leaf])]).
Proof.
  split; [exact flatten_json_names|].
  intros ks leaf Hne Hs Hd.
  rewrite flatten_json_appends, appends_nest, appends_scalar_object by assumption.
  destruct leaf; [congruence|reflexivity].
Qed.

Lemma table_names_are_key_paths_witness :
  _flatten_json
    (JDict [(Py.lit "a", JDict [(Py.lit "b", JDict [(Py.lit "c",
        JDict [(Py.lit "x", JInt 1)])])])])
    root None
  = [(Py.lit "root.a.b.c", [[(Py.lit "x", JInt 1)]])].
Proof.
  apply (proj2 table_names_are_key_paths
           [Py.lit "a"; Py.lit "b"; Py.lit "c"] [(Py.lit "x", JInt 1)]);
    [discriminate|reflexivity|reflexivity].
Defined.

(* ------------------------------------------------------------------ *)
(** ** An object with an array-valued field *)

(** A scalar field, as line 59 tests it. *)
Definition is_scalar_field (kv : pystr * json) : bool :=
  negb (is_dict_or_list (snd kv)).

(** A non-empty object with distinct keys and scalar fields only. *)
Definition scalar_record (e : Py.dict json) : bool :=
  match e with
  | [] => false
  | _ :: _ => all_scalar e && distinct_keys e
  end.

(** Flattening the value [v] under the label [path] produces a table
    called [name]. *)
Definition feeds_table (name : pystr) (v : json) (path : pystr) : bool :=
  match Py.dict_get (_flatten_json v path None) name with
  | Some _ => true
  | None => false
  end.

(** No field of [items] other than [field] flattens into the table of
    [field]. *)
Definition field_table_private (items : Py.dict json) (field : pystr) : bool :=
  forallb (fun kv =>
             Py.str_eqb (fst kv) field
             || negb (feeds_table (root +++ Py.lit "." +++ field) (snd kv)
                                  (root +++ Py.lit "." +++ fst kv)))
          items.

Lemma scalar_fields_filter items :
  forall r, NoDup (Py.keys (r ++ items)) ->
    scalar_fields items r = r ++ filter is_scalar_field items.
Proof.
  induction items as [|[k v] rest IH]; simpl; intros r Hnd.
  - now rewrite app_nil_r.
  - unfold is_scalar_field at 1. simpl.
    unfold Py.keys in Hnd. rewrite map_app in Hnd. simpl in Hnd.
    destruct (is_dict_or_list v); simpl.
    + apply IH. unfold Py.keys. rewrite map_app.
      eapply NoDup_remove_1; eassumption.
    + assert (Hk : ~ In k (Py.keys r)).
      { apply NoDup_remove_2 in Hnd. rewrite in_app_iff in Hnd. tauto. }
      rewrite (dict_set_fresh r k v Hk), IH.
      * now rewrite <- app_assoc.
      * unfold Py.keys. rewrite <- app_assoc, map_app. exact Hnd.
Qed.

Lemma dict_get_In {V} (d : Py.dict V) k v :
  Py.dict_get d k = Some v -> In (k, v) d.
Proof.
  induction d as [|[k' v'] d IH]; simpl; [discriminate|].
  destruct (Py.str_eqb k' k) eqn:E.
  - apply str_eqb_eq in E. intros [= ->]. left. congruence.
  - auto.
Qed.

Lemma flat_map_all_nil {A B} (g : A -> list B) l :
  (forall x, In x l -> g x = []) -> flat_map g l = [].
Proof.
  induction l as [|x l IH]; simpl; intros H; [reflexivity|].
  rewrite (H x), IH; auto.
Qed.

Lemma flat_map_one_key {V B} (g : pystr * V -> list B) items field v0 :
  NoDup (Py.keys items) -> In (field, v0) items ->
  (forall k v, In (k, v) items -> k <> field -> g (k, v) = []) ->
  flat_map g items = g (field, v0).
Proof.
  induction items as [|[k v] rest IH]; simpl; intros Hnd Hin Hother; [tauto|].
  inversion Hnd as [|? ? Hk Hrest]; subst.
  assert (Hkeys : forall k' v', In (k', v') rest -> In k' (Py.keys rest)).
  { intros k' v' H. apply in_map_iff. now exists (k', v'). }
  destruct Hin as [Heq|Hin].
  - inversion Heq; subst.
    assert (Hnil : flat_map g rest = []).
    { apply flat_map_all_nil. intros [k' v'] Hin'.
      apply Hother; [now right|]. intros ->. apply Hk. eauto. }
    rewrite Hnil. apply app_nil_r.
  - rewrite (Hother k v); [|now left|].
    + simpl. apply IH; auto.
    + intros ->. apply Hk. eauto.
Qed.

Lemma sent_to_flat_map {A} name (f : A -> list (pystr * row)) l :
  sent_to name (flat_map f l) = flat_map (fun x => sent_to name (f x)) l.
Proof.
  induction l as [|x l IH]; simpl; [reflexivity|].
  now rewrite sent_to_app, IH.
Qed.

Lemma dot_join_prefix ks : forall p, exists s, dot_join p ks = p ++ s.
Proof.
  induction ks as [|k ks IH]; intros p.
  - exists []. simpl. now rewrite app_nil_r.
  - destruct (IH (p +++ Py.lit "." +++ k)) as [s Hs].
    exists (Py.lit "." +++ k +++ s).
    change (dot_join p (k :: ks)) with (dot_join (p +++ Py.lit "." +++ k) ks).
    rewrite Hs. now rewrite <- !app_assoc.
Qed.

Lemma extended_label_differs (p k s : pystr) : (p +++ Py.lit "." +++ k) ++ s <> p.
Proof.
  intros H. rewrite <- app_assoc in H.
  rewrite <- (app_nil_r p) in H at 2. apply app_inv_head in H. discriminate.
Qed.

(** The tables fed by a nested field never include the parent's own. *)
Lemma nested_field_not_parent v p k :
  sent_to p (appends v (p +++ Py.lit "." +++ k)) = [].
Proof.
  apply sent_to_nil_iff. intros Hin. apply in_map_iff in Hin.
  destruct Hin as [[n r] [Hn Hin]]. simpl in Hn. subst n.
  destruct (appends_sound _ _ _ _ Hin) as [ks [d [_ [_ [_ Hname]]]]].
  destruct (dot_join_prefix ks (p +++ Py.lit "." +++ k)) as [s Hs].
  rewrite Hs in Hname. symmetry in Hname.
  exact (extended_label_differs _ _ _ Hname).
Qed.

Lemma appends_scalar_records elems q :
  forallb scalar_record elems = true ->
  appends (JList (map JDict elems)) q = map (fun e => (q, e)) elems.
Proof.
  intros H. change (appends (JList (map JDict elems)) q)
    with (flat_map (fun item => appends item q) (map JDict elems)).
  induction elems as [|e elems IH]; [reflexivity|].
  simpl in H. apply andb_true_iff in H. destruct H as [He H].
  cbn [map flat_map]. rewrite (IH H).
  destruct e as [|x e]; [discriminate|].
  simpl in He. apply andb_true_iff in He. destruct He as [Hs Hd].
  rewrite appends_scalar_object by assumption. reflexivity.
Qed.

Lemma sent_to_same q (elems : list row) :
  sent_to q (map (fun e => (q, e)) elems) = elems.
Proof.
  unfold sent_to. induction elems as [|e elems IH]; simpl; [reflexivity|].
  rewrite str_eqb_refl. simpl. now rewrite IH.
Qed.

Lemma feeds_table_false name v path :
  feeds_table name v path = false -> sent_to name (appends v path) = [].
Proof.
  unfold feeds_table. rewrite flatten_json_appends, append_all_get.
  destruct (sent_to name (appends v path)); [reflexivity|discriminate].
Qed.

(** What the fields of an object append, before the object's own row. *)
Definition field_appends (parent_key : pystr) (kv : pystr * json)
    : list (pystr * row) :=
  if is_dict_or_list (snd kv)
  then appends (snd kv) (parent_key +++ Py.lit "." +++ fst kv)
  else [].

Lemma appends_dict items parent_key :
  appends (JDict items) parent_key =
    flat_map (field_appends parent_key) items
    ++ match scalar_fields items [] with
       | [] => []
       | r => [(parent_key, r)]
       end.
Proof. reflexivity. Qed.

Lemma sent_to_own_row name parent_key (r : row) :
  sent_to name match r with [] => [] | x :: r' => [(parent_key, x :: r')] end =
    if Py.str_eqb parent_key name
    then match r with [] => [] | x :: r' => [x :: r'] end
    else [].
Proof.
  destruct r; unfold sent_to; simpl.
  - now destruct (Py.str_eqb parent_key name).
  - now destruct (Py.str_eqb parent_key name).
Qed.

(** C2, amended: in an object with distinct keys, let [field] hold an array
    of N non-empty scalar-only objects, and let no other field flatten into
    a table called "root.field".  Then the table "root.field" holds exactly
    the N array elements as its rows, in array order (and is absent when
    N = 0), and the table "root" holds exactly one row, made of the scalar
    fields of the object in their order (and is absent when there are
    none). *)
Theorem flatten_array_field (items : Py.dict json) (field : pystr)
    (elems : list (Py.dict json)) :
  distinct_keys items = true ->
  Py.dict_get items field = Some (JList (map JDict elems)) ->
  forallb scalar_record elems = true ->
  field_table_private items field = true ->
  Py.dict_get (_flatten_json (JDict items) root None) (root +++ Py.lit "." +++ field)
    = match elems with
      | [] => None
      | _ :: _ => Some elems
      end
  /\
  Py.dict_get (_flatten_json (JDict items) root None) root
    = match filter is_scalar_field items with
      | [] => None
      | r => Some [r]
      end.
Proof.
  intros Hd Hget Helems Hpriv.
  apply distinct_keys_NoDup in Hd. apply dict_get_In in Hget.
  rewrite flatten_json_appends, !append_all_get, appends_dict, !sent_to_app,
    !sent_to_own_row, !sent_to_flat_map.
  split.
  - assert (Hroot : Py.str_eqb root (root +++ Py.lit "." +++ field) = false).
    { apply str_eqb_neq. intros H. symmetry in H.
      apply (extended_label_differs root field []). now rewrite app_nil_r. }
    rewrite Hroot, app_nil_r.
    rewrite (flat_map_one_key _ items field (JList (map JDict elems)) Hd Hget).
    + unfold field_appends. cbn [snd fst is_dict_or_list].
      rewrite appends_scalar_records, sent_to_same by assumption.
      destruct elems; reflexivity.
    + intros k v Hin Hne. unfold field_appends. cbn [fst snd].
      destruct (is_dict_or_list v); [|reflexivity].
      apply feeds_table_false.
      unfold field_table_private in Hpriv. rewrite forallb_forall in Hpriv.
      specialize (Hpriv (k, v) Hin). cbn [fst snd] in Hpriv.
      apply orb_true_iff in Hpriv. destruct Hpriv as [E|E].
      * apply str_eqb_eq in E. contradiction.
      * now apply negb_true_iff in E.
  - rewrite str_eqb_refl.
    rewrite flat_map_all_nil.
    + rewrite (scalar_fields_filter items [] Hd). cbn [app rows_of Py.dict_get].
      destruct (filter is_scalar_field items); reflexivity.
    + intros [k v] _. unfold field_appends. cbn [fst snd].
      destruct (is_dict_or_list v); [|reflexivity].
      apply nested_field_not_parent.
Qed.

Lemma flatten_array_field_witness :
  let members := [[(Py.lit "name", JStr (Py.lit "ann")); (Py.lit "trophies", JInt 5300)];
                  [(Py.lit "name", JStr (Py.lit "bo"))]] in
  let clan := [(Py.lit "tag", JStr (Py.lit "#2PP"));
               (Py.lit "memberList", JList (map JDict members));
               (Py.lit "location", JDict [(Py.lit "id", JInt 57000038)]);
               (Py.lit "members", JInt 2)] in
  Py.dict_get (_flatten_json (JDict clan) root None) (Py.lit "root.memberList")
    = Some members
  /\
  Py.dict_get (_flatten_json (JDict clan) root None) root
    = Some [[(Py.lit "tag", JStr (Py.lit "#2PP")); (Py.lit "members", JInt 2)]].
Proof.
  intros members clan.
  apply (flatten_array_field clan (Py.lit "memberList") members); reflexivity.
Defined.

(** C2 as stated fails when an element of the array is the empty object:
    the array of the field "f" holds N = 1 scalar-only object, yet no table
    "root.f" is produced (the result is empty), so it does not have one
    row. *)
Lemma flatten_array_of_empty_object :
  let obj := [(Py.lit "f", JList [JDict []])] in
  distinct_keys obj = true /\
  forallb all_scalar [[]] = true /\
  _flatten_json (JDict obj) root None = [] /\
  rows_of (_flatten_json (JDict obj) root None) (Py.lit "root.f") <> [[]].
Proof. repeat split; discriminate. Qed.

(** Why the amended statement asks that no other field feed the table: a
    key containing '.' can name the same table as a nested path.  Here the
    array of "a.b" holds one object, and the table "root.a.b" two rows. *)
Example dotted_key_shares_table :
  rows_of
    (_flatten_json
       (JDict [(Py.lit "a.b", JList [JDict [(Py.lit "x", JInt 1)]]);
               (Py.lit "a", JDict [(Py.lit "b", JList [JDict [(Py.lit "y", JInt 2)]])])])
       root None)
    (Py.lit "root.a.b")
  = [[(Py.lit "x", JInt 1)]; [(Py.lit "y", JInt 2)]].
Proof. reflexivity. Qed.

(* ================================================================== *)
(** * Tabular datasets and the writer: [save_tables_to_csv] (lines 19-41) *)

(** pandas is not part of the repository.  The model keeps what the
    program observes of a [DataFrame] built from a list of dicts: the
    column labels (the keys of the rows, in order of first appearance),
    the records, and [empty]. *)
Record dataframe : Type := {
  df_columns : list pystr;
  df_records : list row
}.

Definition add_column (cols : list pystr) (k : pystr) : list pystr :=
  if existsb (Py.str_eqb k) cols then cols else cols ++ [k].

(** [pd.DataFrame(rows)] *)
Definition DataFrame (rows : list row) : dataframe :=
  {| df_columns :=
       fold_left (fun cols r => fold_left add_column (Py.keys r) cols) rows [];
     df_records := rows |}.

(** [df.empty]: some axis has length 0. *)
Definition df_empty (df : dataframe) : bool :=
  match df_columns df, df_records df with
  | [], _ => true
  | _, [] => true
  | _ :: _, _ :: _ => false
  end.

(** Lines 131-133: [dfs[table_name] = pd.DataFrame(rows)] for each table. *)
Definition dataframes (t : tables) : Py.dict dataframe :=
  fold_left (fun dfs e => Py.dict_set dfs (fst e) (DataFrame (snd e))) t [].

Definition ord (a : ascii) : N := N_of_ascii a.

Definition in_range (lo hi c : N) : bool := N.leb lo c && N.leb c hi.

(** The character class [[^a-zA-Z0-9_.-]] of line 37. *)
Definition unsafe_char (c : N) : bool :=
  negb (in_range (ord "a") (ord "z") c
        || in_range (ord "A") (ord "Z") c
        || in_range (ord "0") (ord "9") c
        || N.eqb c (ord "_") || N.eqb c (ord ".") || N.eqb c (ord "-")).

(** [re.sub(pattern, repl, s)] for a pattern that is one character class:
    every matching character is replaced, the others are copied. *)
Definition re_sub_class (class : N -> bool) (repl : pystr) (s : pystr) : pystr :=
  flat_map (fun c => if class c then repl else [c]) s.

(** Line 37. *)
Definition safe_name (table_name : pystr) : pystr :=
  re_sub_class unsafe_char (Py.lit "_") table_name.

(** [os.path.join(a, b)] on POSIX. *)
Definition path_join (a b : pystr) : pystr :=
  match b with
  | c :: _ => if N.eqb c (ord "/") then b
              else match rev a with
                   | [] => b
                   | l :: _ => if N.eqb l (ord "/") then a +++ b
                               else a +++ Py.lit "/" +++ b
                   end
  | [] => match rev a with
          | [] => b
          | l :: _ => if N.eqb l (ord "/") then a else a +++ Py.lit "/"
          end
  end.

(** What the writer does to the file system and, for a skipped table,
    that it took the branch of lines 32-34.  The calls are recorded as
    made; a failing [os.makedirs] or [to_csv] (an empty or unwritable
    path) is not covered. *)
Inductive writer_event : Type :=
| MakeDirs (path : pystr)
| SkipEmpty (table_name : pystr)
| ToCsv (file_path : pystr) (df : dataframe) (index : bool).

Definition save_table (output_dir : pystr) (index : bool)
    (entry : pystr * dataframe) : writer_event :=
  let (table_name, df) := entry in
  if df_empty df then SkipEmpty table_name
  else ToCsv (path_join output_dir (safe_name table_name +++ Py.lit ".csv"))
             df index.

Definition save_tables_to_csv (tbls : Py.dict dataframe) (output_dir : pystr)
    (index : bool) : list writer_event :=
  MakeDirs output_dir :: map (save_table output_dir index) tbls.

(* ------------------------------------------------------------------ *)
(** ** File-name sanitisation *)

(** The characters of [[A-Za-z0-9_.-]], by code point. *)
Definition kept_char (c : N) : Prop :=
  (97 <= c <= 122 \/ 65 <= c <= 90 \/ 48 <= c <= 57
   \/ c = 95 \/ c = 46 \/ c = 45)%N.

Lemma unsafe_char_false c : unsafe_char c = false <-> kept_char c.
Proof.
  unfold unsafe_char, kept_char, in_range, ord. simpl N_of_ascii.
  rewrite negb_false_iff, !orb_true_iff, !andb_true_iff, !N.leb_le, !N.eqb_eq.
  tauto.
Qed.

Lemma safe_name_map name :
  safe_name name = map (fun c => if unsafe_char c then 95%N else c) name.
Proof.
  unfold safe_name, re_sub_class.
  induction name as [|c name IH]; simpl; [reflexivity|].
  rewrite IH. now destruct (unsafe_char c).
Qed.

(** C8: the safe name has the length of the table name; at every position
    a character of [[A-Za-z0-9_.-]] is kept and any other character becomes
    '_'.  [safe_name] is a function of the name alone, so equal names give
    equal safe names. *)
Theorem safe_name_pointwise (name : pystr) :
  List.length (safe_name name) = List.length name
  /\ (forall i c, nth_error name i = Some c ->
        (kept_char c -> nth_error (safe_name name) i = Some c)
        /\ (~ kept_char c -> nth_error (safe_name name) i = Some (ord "_")))
  /\ (forall other, other = name -> safe_name other = safe_name name).
Proof.
  split; [rewrite safe_name_map; apply length_map|]. split.
  - intros i c Hc. rewrite safe_name_map, nth_error_map, Hc. simpl.
    destruct (unsafe_char c) eqn:E.
    + split; [|reflexivity]. intros Hk. apply unsafe_char_false in Hk. congruence.
    + split; [reflexivity|]. intros Hk. apply unsafe_char_false in E. contradiction.
  - intros other ->. reflexivity.
Qed.

Lemma safe_name_pointwise_witness :
  safe_name (Py.lit "root.#x/y") = Py.lit "root._x_y"
  /\ nth_error (safe_name (Py.lit "root.#x/y")) 5 = Some (ord "_")
  /\ nth_error (safe_name (Py.lit "root.#x/y")) 6 = Some (ord "x").
Proof.
  split; [reflexivity|]. split.
  - apply (proj1 (proj2 (safe_name_pointwise (Py.lit "root.#x/y"))) 5%nat (ord "#"));
      [reflexivity|].
    unfold kept_char, ord. simpl. lia.
  - apply (proj1 (proj2 (safe_name_pointwise (Py.lit "root.#x/y"))) 6%nat (ord "x"));
      [reflexivity|].
    unfold kept_char, ord. simpl. lia.
Defined.

(* ------------------------------------------------------------------ *)
(** ** Every table of the flattener has a row, every row a field *)

(** A bucket with at least one row, all of whose rows have a field. *)
Definition bucket_filled (t : pystr * list row) : Prop :=
  snd t <> [] /\ Forall (fun r => r <> []) (snd t).

Lemma dd_append_filled out name (r : row) :
  Forall bucket_filled out -> r <> [] ->
  Forall bucket_filled (Py.dd_append out name r).
Proof.
  intros Hout Hr. induction Hout as [|[k rows] out Hk Hout IH]; simpl.
  - constructor; [|constructor]. split; simpl; [discriminate|now constructor].
  - destruct (Py.str_eqb k name); constructor; trivial.
    destruct Hk as [Hne Hall]. split; simpl in *.
    + destruct rows; discriminate.
    + apply Forall_app. split; [exact Hall|]. now constructor.
Qed.

Lemma append_all_filled es :
  Forall (fun e => snd e <> []) es ->
  forall out, Forall bucket_filled out -> Forall bucket_filled (append_all out es).
Proof.
  induction 1 as [|[n r] es Hr _ IH]; intros out Hout; [exact Hout|].
  apply IH. now apply dd_append_filled.
Qed.

Lemma appends_rows_not_nil obj parent_key :
  Forall (fun e => snd e <> []) (appends obj parent_key).
Proof.
  apply Forall_forall. intros [n r] Hin.
  destruct (appends_sound _ _ _ _ Hin) as [ks [d [_ [_ [Hne _]]]]]. exact Hne.
Qed.

Lemma flatten_json_filled obj parent_key :
  Forall bucket_filled (_flatten_json obj parent_key None).
Proof.
  rewrite flatten_json_appends.
  apply append_all_filled; [apply appends_rows_not_nil|constructor].
Qed.

Lemma add_columns_not_nil ks :
  forall cols, cols <> [] \/ ks <> [] -> fold_left add_column ks cols <> [].
Proof.
  induction ks as [|k ks IH]; simpl; intros cols H.
  - destruct H; congruence.
  - apply IH. left. unfold add_column.
    destruct (existsb (Py.str_eqb k) cols) eqn:E.
    + intros ->. discriminate.
    + destruct cols; discriminate.
Qed.

Lemma columns_not_nil rows :
  forall cols, cols <> [] ->
    fold_left (fun cols (r : row) => fold_left add_column (Py.keys r) cols) rows cols
    <> [].
Proof.
  induction rows as [|r rows IH]; simpl; intros cols H; [exact H|].
  apply IH, add_columns_not_nil. now left.
Qed.

Lemma DataFrame_not_empty t : bucket_filled t -> df_empty (DataFrame (snd t)) = false.
Proof.
  destruct t as [n rows]. intros [Hne Hall]. simpl in *.
  destruct rows as [|r rows]; [congruence|].
  inversion Hall as [|? ? Hr _]; subst.
  unfold df_empty, DataFrame. simpl.
  destruct (fold_left _ rows _) eqn:E; [|reflexivity].
  exfalso. revert E. apply columns_not_nil, add_columns_not_nil.
  right. destruct r; [congruence|discriminate].
Qed.

Lemma dict_set_Forall {V} (P : V -> Prop) (d : Py.dict V) k v :
  Forall (fun e => P (snd e)) d -> P v ->
  Forall (fun e => P (snd e)) (Py.dict_set d k v).
Proof.
  induction 1 as [|[k' v'] d Hv' Hd IH]; simpl; intros Hv.
  - now repeat constructor.
  - destruct (Py.str_eqb k' k); constructor; auto.
Qed.

Lemma dataframes_not_empty t :
  Forall bucket_filled t ->
  Forall (fun e => df_empty (snd e) = false) (dataframes t).
Proof.
  unfold dataframes. intros Ht.
  assert (Hacc : Forall (fun e : pystr * dataframe => df_empty (snd e) = false) [])
    by constructor.
  revert Hacc. generalize (@nil (pystr * dataframe)).
  induction Ht as [|e t He _ IH]; intros acc Hacc; simpl; [exact Hacc|].
  apply IH. apply (dict_set_Forall (fun df => df_empty df = false)); trivial.
  now apply DataFrame_not_empty.
Qed.

(** C9: whatever the JSON input and the starting path, every table of the
    flattener's result has at least one row and every row has at least one
    field; hence, for the datasets built from it, the writer never takes
    its empty-table branch. *)
Theorem flattener_tables_never_empty (obj : json) (parent_key : pystr) :
  Forall bucket_filled (_flatten_json obj parent_key None)
  /\ forall output_dir index table_name,
       ~ In (SkipEmpty table_name)
            (save_tables_to_csv (dataframes (_flatten_json obj parent_key None))
                                output_dir index).
Proof.
  split; [apply flatten_json_filled|].
  intros output_dir index table_name [H|H]; [discriminate|].
  apply in_map_iff in H. destruct H as [[n df] [Hev Hin]].
  pose proof (dataframes_not_empty _ (flatten_json_filled obj parent_key)) as Hall.
  rewrite Forall_forall in Hall. specialize (Hall _ Hin). simpl in *.
  rewrite Hall in Hev. discriminate.
Qed.

(* ================================================================== *)
(** * The outside world of the fetcher *)

(** The exceptions the program meets.  [RequestException] stands for
    [requests.exceptions.RequestException] and its subclasses.
    [OverflowError] carries no message: [time.sleep] raises it for a wait
    out of its range, and [backoff_factor ** attempt] raises it before
    that when the power leaves the float range, with the same effect on
    the run. *)
Inductive exn : Type :=
| AttributeError (msg : pystr)
| RuntimeError (msg : pystr)
| ValueError (msg : pystr)
| OverflowError
| RequestException
| OtherException.

(** [except requests.exceptions.RequestException] (line 137). *)
Definition is_request_exception (e : exn) : bool :=
  match e with
  | RequestException => true
  | _ => false
  end.

(** What [response.json()] does: it returns the parsed body or raises. *)
Inductive json_outcome : Type :=
| JsonValue (data : json)
| JsonRaises (e : exn).

Record response : Type := {
  status_code : Z;
  text : pystr;
  json_body : json_outcome
}.

(** What one [requests.get] does: it returns a response or raises. *)
Inductive get_outcome : Type :=
| Responds (r : response)
| GetRaises (e : exn).

(** The observable actions of the fetcher, in the order they happen. *)
Inductive event : Type :=
| HttpGet (url : pystr) (headers : Py.dict pystr) (timeout : Z)
| Sleep (seconds : Q).

Definition is_get (e : event) : bool :=
  match e with
  | HttpGet _ _ _ => true
  | Sleep _ => false
  end.

(** The number of requests issued so far. *)
Definition gets (tr : list event) : nat := List.length (filter is_get tr).

Inductive result (A : Type) : Type :=
| Returns (a : A)
| Raises (e : exn).
Arguments Returns {A} a.
Arguments Raises {A} e.

(** A computation: from the trace so far to a result and the trace after. *)
Definition M (A : Type) : Type := list event -> result A * list event.

Definition ret {A} (a : A) : M A := fun tr => (Returns a, tr).

Definition raise {A} (e : exn) : M A := fun tr => (Raises e, tr).

Definition bind {A B} (m : M A) (k : A -> M B) : M B :=
  fun tr =>
    match m tr with
    | (Returns a, tr') => k a tr'
    | (Raises e, tr') => (Raises e, tr')
    end.

Notation "x <- m ;; k" := (bind m (fun x => k))
  (at level 61, m at next level, right associativity).
Notation "m ;;; k" := (bind m (fun _ => k))
  (at level 61, right associativity).

(** [try: body except <caught>: handler] *)
Definition try_except {A} (body : M A) (caught : exn -> bool)
    (handler : exn -> M A) : M A :=
  fun tr =>
    match body tr with
    | (Raises e, tr') => if caught e then handler e tr' else (Raises e, tr')
    | done => done
    end.

(** The wait as [time.sleep] converts it: a signed 64-bit count of
    nanoseconds, rounded away from zero. *)
Definition to_nanoseconds (secs : Q) : Z :=
  if Qle_bool 0 secs then Qceiling (secs * 1000000000)
  else Qfloor (secs * 1000000000).

(** The exception of [time.sleep(secs)], if it raises: the count of
    nanoseconds must fit 64 bits (about 9.22e9 seconds either way), and,
    checked after that, must not be negative. *)
Definition sleep_error (secs : Q) : option exn :=
  let ns := to_nanoseconds secs in
  if negb (Z.leb (- 2 ^ 63) ns && Z.ltb ns (2 ^ 63)) then Some OverflowError
  else if Z.ltb ns 0
       then Some (ValueError (Py.lit "sleep length must be non-negative"))
       else None.

(** [time.sleep(secs)] *)
Definition time_sleep (secs : Q) : M unit :=
  fun tr =>
    match sleep_error secs with
    | Some e => (Raises e, tr)
    | None => (Returns tt, tr ++ [Sleep secs])
    end.

(** A wait [time.sleep] accepts. *)
Definition sleepable (secs : Q) : bool :=
  match sleep_error secs with
  | None => true
  | Some _ => false
  end.

(** [response.json()] *)
Definition response_json (r : response) : M json :=
  fun tr =>
    match json_body r with
    | JsonValue data => (Returns data, tr)
    | JsonRaises e => (Raises e, tr)
    end.

(** [x.replace(old, new)] where [x] comes from [os.getenv]: [None] has no
    such method. *)
Definition getenv_replace (x : option pystr) (old : N) (new : pystr) : M pystr :=
  match x with
  | Some s => ret (Py.replace_char old new s)
  | None => raise (AttributeError
                     (Py.lit "'NoneType' object has no attribute 'replace'"))
  end.

(** [f"{x}"] for a [str] or [None]. *)
Definition format_value (x : option pystr) : pystr :=
  match x with
  | Some s => s
  | None => Py.lit "None"
  end.

(** [str.upper] on ASCII: the letters a-z move to A-Z. *)
Definition ascii_upper (c : N) : N :=
  if in_range (ord "a") (ord "z") c then (c - 32)%N else c.

(** The outcome of a loop body: fall through to the next iteration, or
    [return] a value from the enclosing function. *)
Inductive flow (A : Type) : Type :=
| NextIteration
| ReturnValue (a : A).
Arguments NextIteration {A}.
Arguments ReturnValue {A} a.

(** [for x in xs: body] followed by [after]. *)
Fixpoint for_each {X A} (body : X -> M (flow A)) (xs : list X) (after : M A)
    : M A :=
  match xs with
  | [] => after
  | x :: rest =>
      f <- body x ;;
      match f with
      | ReturnValue a => ret a
      | NextIteration => for_each body rest after
      end
  end.

(** The defaults of lines 77-79. *)
Definition default_max_retries : Z := 5.
Definition default_backoff_factor : Q := 3 # 2.
Definition default_timeout : Z := 30.

(* ================================================================== *)
(** * The fetcher: [fetch_clan_data_auto_tables] (lines 74-142) *)

Section Fetcher.

(** [str.upper] outside ASCII: the upper-case mapping of the interpreter's
    Unicode database, from a code point to one or more code points. *)
Variable unicode_upper : N -> pystr.

(** The module-level [USER_TAG = os.getenv("USER_TAG")] (line 16). *)
Variable USER_TAG : option pystr.

(** The simulated transport: the outcome of the request number [i],
    counted from 0. *)
Variable server : nat -> get_outcome.

Definition str_upper (s : pystr) : pystr :=
  flat_map (fun c => if N.ltb c 128 then [ascii_upper c] else unicode_upper c) s.

(** [requests.get(url, headers=headers, timeout=timeout)] *)
Definition requests_get (url : pystr) (headers : Py.dict pystr) (timeout : Z)
    : M response :=
  fun tr =>
    match server (gets tr) with
    | Responds r => (Returns r, tr ++ [HttpGet url headers timeout])
    | GetRaises e => (Raises e, tr ++ [HttpGet url headers timeout])
    end.

(** Line 91. *)
Definition clan_url (clan_tag_clean : pystr) : pystr :=
  Py.lit "https://api.clashroyale.com/v1/clans/%23" +++ clan_tag_clean.

(** Lines 96-99. *)
Definition request_headers (api_token : option pystr) : Py.dict pystr :=
  [(Py.lit "Authorization", Py.lit "Bearer " +++ format_value api_token);
   (Py.lit "Accept", Py.lit "application/json")].

(** The body of the loop, lines 102-140. *)
Definition attempt_body (url : pystr) (headers : Py.dict pystr)
    (backoff_factor : Q) (timeout : Z) (attempt : Z)
    : M (flow (Py.dict dataframe)) :=
  try_except
    (response <- requests_get url headers timeout ;;
     if Z.eqb (status_code response) 429 then
       time_sleep (backoff_factor ^ attempt) ;;;
       ret NextIteration
     else if Z.geb (status_code response) 500 then
       time_sleep (backoff_factor ^ attempt) ;;;
       ret NextIteration
     else if negb (Z.eqb (status_code response) 200) then
       raise (RuntimeError
                (Py.lit "HTTP " +++ Py.str_of_int (status_code response)
                 +++ Py.lit ": " +++ Py.slice_to 300 (text response)))
     else
       data <- response_json response ;;
       ret (ReturnValue (dataframes (_flatten_json data root None))))
    is_request_exception
    (fun _ =>
       time_sleep (backoff_factor ^ attempt) ;;;
       ret NextIteration).

Definition fetch_clan_data_auto_tables (clan_tag api_token : option pystr)
    (max_retries : Z) (backoff_factor : Q) (timeout : Z)
    : M (Py.dict dataframe) :=
  clan_tag_hashless <- getenv_replace clan_tag (ord "#") [] ;;
  let clan_tag_clean := str_upper clan_tag_hashless in
  user_tag_hashless <- getenv_replace USER_TAG (ord "#") [] ;;
  let user_tag_clean := str_upper user_tag_hashless in
  let url := clan_url clan_tag_clean in
  let headers := request_headers api_token in
  for_each (attempt_body url headers backoff_factor timeout)
           (Py.range1 max_retries)
           (raise (RuntimeError
                     (Py.lit "Max retries exceeded while fetching clan data"))).

End Fetcher.

(* ------------------------------------------------------------------ *)
(** ** One attempt *)

(** An outcome that the loop answers with a sleep and the next attempt:
    status 429, status 500 or above, or a [RequestException]. *)
Definition retried (o : get_outcome) : bool :=
  match o with
  | Responds r => Z.eqb (status_code r) 429 || Z.geb (status_code r) 500
  | GetRaises e => is_request_exception e
  end.

(** The trace of attempts that are all retried. *)
Definition retry_trace (url : pystr) (headers : Py.dict pystr) (timeout : Z)
    (backoff_factor : Q) (attempts : list Z) : list event :=
  flat_map (fun attempt =>
              [HttpGet url headers timeout; Sleep (backoff_factor ^ attempt)])
           attempts.

Lemma gets_app tr1 tr2 : gets (tr1 ++ tr2) = (gets tr1 + gets tr2)%nat.
Proof. unfold gets. now rewrite filter_app, length_app. Qed.

Lemma gets_retry_trace url headers timeout f attempts :
  gets (retry_trace url headers timeout f attempts) = List.length attempts.
Proof.
  induction attempts as [|a attempts IH]; [reflexivity|].
  unfold retry_trace in *. cbn [flat_map]. rewrite gets_app, IH. reflexivity.
Qed.

Section Attempts.

Variable server : nat -> get_outcome.
Variables (url : pystr) (headers : Py.dict pystr).
Variables (backoff_factor : Q) (timeout : Z).

Let body := attempt_body server url headers backoff_factor timeout.
Let GET := HttpGet url headers timeout.

Lemma sleep_error_not_caught secs e :
  sleep_error secs = Some e -> is_request_exception e = false.
Proof.
  unfold sleep_error. destruct (negb _); [intros [= <-]; reflexivity|].
  destruct (Z.ltb _ 0); [intros [= <-]; reflexivity|discriminate].
Qed.

Lemma sleep_ok secs tr :
  sleepable secs = true -> time_sleep secs tr = (Returns tt, tr ++ [Sleep secs]).
Proof.
  unfold sleepable, time_sleep. destruct (sleep_error secs); [discriminate|reflexivity].
Qed.

Lemma attempt_retried attempt tr :
  retried (server (gets tr)) = true ->
  sleepable (backoff_factor ^ attempt) = true ->
  body attempt tr =
    (Returns NextIteration, tr ++ [GET; Sleep (backoff_factor ^ attempt)]).
Proof.
  intros Hr Hw. unfold body, attempt_body, try_except, bind, requests_get.
  destruct (server (gets tr)) as [r|e]; simpl in Hr.
  - destruct (status_code r =? 429)%Z.
    + rewrite sleep_ok by exact Hw. unfold ret. now rewrite <- app_assoc.
    + simpl in Hr. rewrite Hr.
      rewrite sleep_ok by exact Hw. unfold ret. now rewrite <- app_assoc.
  - rewrite Hr. rewrite sleep_ok by exact Hw. unfold ret. now rewrite <- app_assoc.
Qed.

Lemma attempt_hard_fail attempt tr r :
  server (gets tr) = Responds r ->
  status_code r <> 200%Z -> status_code r <> 429%Z -> (status_code r < 500)%Z ->
  body attempt tr =
    (Raises (RuntimeError
               (Py.lit "HTTP " +++ Py.str_of_int (status_code r)
                +++ Py.lit ": " +++ Py.slice_to 300 (text r))),
     tr ++ [GET]).
Proof.
  intros Hs H200 H429 H500.
  unfold body, attempt_body, try_except, bind, requests_get. rewrite Hs.
  apply Z.eqb_neq in H200, H429. rewrite H429, H200.
  assert (Hge : (status_code r >=? 500)%Z = false)
    by (rewrite Z.geb_leb; apply Z.leb_gt; exact H500).
  rewrite Hge. reflexivity.
Qed.

Lemma attempt_success attempt tr r data :
  server (gets tr) = Responds r ->
  status_code r = 200%Z -> json_body r = JsonValue data ->
  body attempt tr =
    (Returns (ReturnValue (dataframes (_flatten_json data root None))),
     tr ++ [GET]).
Proof.
  intros Hs H200 Hj.
  unfold body, attempt_body, try_except, bind, requests_get, response_json.
  rewrite Hs, H200, Hj. reflexivity.
Qed.

(** A run of retried attempts leaves the loop where it was, with the
    trace extended by one request and one sleep per attempt. *)
Lemma for_each_retried attempts :
  forall rest after tr,
    (forall i, (i < List.length attempts)%nat ->
               retried (server (gets tr + i)) = true) ->
    Forall (fun a => sleepable (backoff_factor ^ a) = true) attempts ->
    for_each body (attempts ++ rest) after tr =
      for_each body rest after
        (tr ++ retry_trace url headers timeout backoff_factor attempts).
Proof.
  induction attempts as [|a attempts IH]; intros rest after tr Hsrv Hf.
  - simpl. now rewrite app_nil_r.
  - inversion Hf as [|? ? Ha Hf']; subst.
    cbn [app for_each]. unfold bind at 1.
    rewrite attempt_retried.
    + rewrite IH; trivial.
      * unfold retry_trace. cbn [flat_map]. fold GET. now rewrite <- app_assoc.
      * intros i Hi. rewrite gets_app.
        replace (gets [GET; Sleep (backoff_factor ^ a)]) with 1%nat by reflexivity.
        replace (gets tr + 1 + i)%nat with (gets tr + S i)%nat by lia.
        apply Hsrv. simpl. lia.
    + specialize (Hsrv 0%nat). rewrite Nat.add_0_r in Hsrv. apply Hsrv. simpl. lia.
    + exact Ha.
Qed.

(** One attempt issues one request and then sleeps at most once. *)
Lemma attempt_trace attempt tr res tr' :
  body attempt tr = (res, tr') ->
  tr' = tr ++ [GET] \/ tr' = tr ++ [GET; Sleep (backoff_factor ^ attempt)].
Proof.
  unfold body, attempt_body, try_except, bind, requests_get, response_json,
    time_sleep, raise, ret.
  assert (Hc := sleep_error_not_caught (backoff_factor ^ attempt)).
  destruct (sleep_error (backoff_factor ^ attempt)) as [se|];
    [specialize (Hc se eq_refl)|clear Hc];
    (destruct (server (gets tr)) as [r|e];
     [ destruct (status_code r =? 429)%Z;
         [|destruct (status_code r >=? 500)%Z;
           [|destruct (negb (status_code r =? 200)%Z);
             [|destruct (json_body r) as [data|e];
               [|destruct (is_request_exception e)]]]]
     | destruct (is_request_exception e) ]);
    rewrite ?Hc; intros [= _ <-]; rewrite <- ?app_assoc; auto.
Qed.

(** Every request of the loop is the same [GET], and the first attempt
    starts with it. *)
Lemma for_each_trace attempts e :
  forall tr res tr',
    for_each body attempts (raise e) tr = (res, tr') ->
    exists ext,
      tr' = tr ++ ext
      /\ Forall (fun ev => is_get ev = true -> ev = GET) ext
      /\ (attempts <> [] -> exists ext', ext = GET :: ext').
Proof.
  induction attempts as [|a attempts IH]; intros tr res tr' Hrun.
  - inversion Hrun; subst. exists []. rewrite app_nil_r.
    repeat split; [constructor|congruence].
  - cbn [for_each] in Hrun. unfold bind at 1 in Hrun.
    destruct (body a tr) as [[f|e'] tr1] eqn:Hbody.
    + assert (Hone := attempt_trace _ _ _ _ Hbody).
      destruct f as [|dfs].
      * apply IH in Hrun. destruct Hrun as [ext [-> [Hall _]]].
        destruct Hone as [->| ->]; rewrite <- app_assoc;
          eexists; (split; [reflexivity|]); split;
          try (intros _; eexists; reflexivity);
          repeat (constructor; [intros; try reflexivity; discriminate|]);
          exact Hall.
      * unfold ret in Hrun. inversion Hrun; subst.
        destruct Hone as [->| ->];
          eexists; (split; [reflexivity|]); split;
          try (intros _; eexists; reflexivity);
          repeat (constructor; [intros; try reflexivity; discriminate|]);
          constructor.
    + assert (Hone := attempt_trace _ _ _ _ Hbody).
      inversion Hrun; subst.
      destruct Hone as [->| ->];
        eexists; (split; [reflexivity|]); split;
        try (intros _; eexists; reflexivity);
        repeat (constructor; [intros; try reflexivity; discriminate|]);
        constructor.
Qed.

End Attempts.

Lemma range1_split (k : nat) (n : Z) :
  (k < Z.to_nat n)%nat ->
  exists rest,
    Py.range1 n = Py.range1 (Z.of_nat k) ++ Z.of_nat (S k) :: rest.
Proof.
  intros Hk. unfold Py.range1. rewrite Nat2Z.id.
  replace (Z.to_nat n) with (k + S (Z.to_nat n - S k))%nat by lia.
  rewrite seq_app, map_app. cbn [seq map].
  eexists. reflexivity.
Qed.

(* ------------------------------------------------------------------ *)
(** ** One dataset per table *)

Lemma dd_append_keys {V} (d : Py.dict (list V)) k (x : V) :
  exists extra, Py.keys (Py.dd_append d k x) = Py.keys d ++ extra
                /\ (In k (Py.keys d) -> extra = [])
                /\ (~ In k (Py.keys d) -> extra = [k]).
Proof.
  induction d as [|[k' xs] d IH]; simpl.
  - exists [k]. intuition.
  - destruct (Py.str_eqb k' k) eqn:E; simpl.
    + apply str_eqb_eq in E. subst k'. exists []. rewrite app_nil_r. intuition.
    + apply str_eqb_neq in E. destruct IH as [extra [Hk [Hin Hout]]].
      exists extra. rewrite Hk. split; [reflexivity|]. split.
      * intros [H|H]; [congruence|auto].
      * intros H. apply Hout. tauto.
Qed.

Lemma dd_append_NoDup {V} (d : Py.dict (list V)) k (x : V) :
  NoDup (Py.keys d) -> NoDup (Py.keys (Py.dd_append d k x)).
Proof.
  intros Hd. destruct (dd_append_keys d k x) as [extra [-> [Hin Hout]]].
  destruct (in_dec (list_eq_dec N.eq_dec) k (Py.keys d)) as [H|H].
  - rewrite (Hin H), app_nil_r. exact Hd.
  - rewrite (Hout H). apply NoDup_app; [exact Hd|repeat constructor; auto|].
    intros a Ha [<-|[]]. contradiction.
Qed.

Lemma append_all_NoDup es :
  forall out, NoDup (Py.keys out) -> NoDup (Py.keys (append_all out es)).
Proof.
  induction es as [|[n r] es IH]; intros out Hout; [exact Hout|].
  apply IH. now apply dd_append_NoDup.
Qed.

Lemma dict_set_new_key {V} (d : Py.dict V) k (v : V) :
  ~ In k (Py.keys d) -> Py.dict_set d k v = d ++ [(k, v)].
Proof. apply dict_set_fresh. Qed.

(** With distinct table names, lines 131-133 build one dataset per table,
    in the order of the tables. *)
Lemma dataframes_map (t : tables) :
  NoDup (Py.keys t) ->
  dataframes t = map (fun e => (fst e, DataFrame (snd e))) t.
Proof.
  unfold dataframes.
  assert (H : forall acc : Py.dict dataframe,
             NoDup (Py.keys acc ++ Py.keys t) ->
             fold_left (fun dfs e => Py.dict_set dfs (fst e) (DataFrame (snd e))) t acc
             = acc ++ map (fun e => (fst e, DataFrame (snd e))) t).
  { induction t as [|[n rows] t IH]; intros acc Hnd; simpl.
    - now rewrite app_nil_r.
    - simpl in Hnd. rewrite dict_set_new_key.
      + rewrite IH; [now rewrite <- app_assoc|].
        unfold Py.keys in *. rewrite map_app, <- app_assoc. exact Hnd.
      + apply NoDup_remove_2 in Hnd. rewrite in_app_iff in Hnd. tauto. }
  intros Hnd. apply (H []). exact Hnd.
Qed.

(** The datasets of a flattened value: one per table, in the order of the
    tables. *)
Lemma dataframes_flatten data parent_key :
  dataframes (_flatten_json data parent_key None)
  = map (fun t => (fst t, DataFrame (snd t))) (_flatten_json data parent_key None).
Proof.
  apply dataframes_map. rewrite flatten_json_appends.
  apply append_all_NoDup. constructor.
Qed.

(* ------------------------------------------------------------------ *)
(** ** The fetcher as a whole *)

(** The URL of lines 89-91 for a clan tag that is a [str]. *)
Definition request_url (unicode_upper : N -> pystr) (clan_tag : pystr) : pystr :=
  clan_url (str_upper unicode_upper (Py.replace_char (ord "#") [] clan_tag)).

Definition exhausted : exn :=
  RuntimeError (Py.lit "Max retries exceeded while fetching clan data").

Lemma fetch_enters_loop unicode_upper user_tag server clan_tag api_token
    max_retries backoff_factor timeout tr :
  fetch_clan_data_auto_tables unicode_upper (Some user_tag) server
      (Some clan_tag) api_token max_retries backoff_factor timeout tr =
    for_each (attempt_body server (request_url unicode_upper clan_tag)
                           (request_headers api_token) backoff_factor timeout)
             (Py.range1 max_retries) (raise exhausted) tr.
Proof. reflexivity. Qed.

Lemma sleepable_waits (f : Q) (attempts : list Z) :
  forallb (fun a => sleepable (f ^ a)) attempts = true ->
  Forall (fun a => sleepable (f ^ a) = true) attempts.
Proof. intros H. apply Forall_forall. now apply forallb_forall. Qed.

(** C5: with the responses 429, 429, 200 (a ceiling of at least 3 attempts,
    both waits accepted by [time.sleep], [USER_TAG] set), the fetcher issues
    three requests, sleeps exactly twice, for base^1 and then base^2
    seconds, and returns one dataset per table of the flattened body of the
    200 response, in the order of the tables; the second wait is longer
    than the first when the base exceeds 1. *)
Theorem rate_limited_twice_then_success
    unicode_upper user_tag server clan_tag api_token max_retries
    backoff_factor timeout (r1 r2 r3 : response) (data : json) :
  (3 <= max_retries)%Z ->
  sleepable (backoff_factor ^ 1) = true ->
  sleepable (backoff_factor ^ 2) = true ->
  server 0%nat = Responds r1 -> status_code r1 = 429%Z ->
  server 1%nat = Responds r2 -> status_code r2 = 429%Z ->
  server 2%nat = Responds r3 -> status_code r3 = 200%Z ->
  json_body r3 = JsonValue data ->
  let GET := HttpGet (request_url unicode_upper clan_tag)
                     (request_headers api_token) timeout in
  fetch_clan_data_auto_tables unicode_upper (Some user_tag) server
      (Some clan_tag) api_token max_retries backoff_factor timeout []
    = (Returns (map (fun t => (fst t, DataFrame (snd t)))
                    (_flatten_json data root None)),
       [GET; Sleep (backoff_factor ^ 1); GET; Sleep (backoff_factor ^ 2); GET])
  /\ (1 < backoff_factor -> backoff_factor ^ 1 < backoff_factor ^ 2).
Proof.
  intros Hmax Hw1 Hw2 Hs1 H1 Hs2 H2 Hs3 H3 Hj GET. split.
  - rewrite fetch_enters_loop.
    destruct (range1_split 2 max_retries) as [rest Hrange]; [lia|].
    rewrite Hrange.
    rewrite for_each_retried.
    + cbn [for_each]. unfold bind at 1.
      erewrite attempt_success; [|exact Hs3|exact H3|exact Hj].
      unfold ret. now rewrite dataframes_flatten.
    + intros i Hi. simpl in Hi.
      destruct i as [|[|i]]; simpl; [rewrite Hs1|rewrite Hs2|lia]; simpl.
      * now rewrite H1.
      * now rewrite H2.
    + repeat constructor; assumption.
  - intros Hgt. apply Qpower_lt_compat_l; [lia|exact Hgt].
Qed.

(** C6: when the response to some attempt has a status other than 200 and
    429 and below 500 (all earlier attempts, if any, having been retried
    after a wait that [time.sleep] accepts), the fetcher raises at once: the
    trace ends with that request, with no sleep and no request after it,
    and the error message carries the status and the first 300 characters
    of the body at most. *)
Theorem hard_fail_is_immediate
    unicode_upper user_tag server clan_tag api_token max_retries
    backoff_factor timeout (k : nat) (r : response) :
  (k < Z.to_nat max_retries)%nat ->
  forallb (fun a => sleepable (backoff_factor ^ a)) (Py.range1 (Z.of_nat k))
  = true ->
  (forall i, (i < k)%nat -> retried (server i) = true) ->
  server k = Responds r ->
  status_code r <> 200%Z -> status_code r <> 429%Z -> (status_code r < 500)%Z ->
  let url := request_url unicode_upper clan_tag in
  let headers := request_headers api_token in
  fetch_clan_data_auto_tables unicode_upper (Some user_tag) server
      (Some clan_tag) api_token max_retries backoff_factor timeout []
    = (Raises (RuntimeError
                 (Py.lit "HTTP " +++ Py.str_of_int (status_code r)
                  +++ Py.lit ": " +++ Py.slice_to 300 (text r))),
       retry_trace url headers timeout backoff_factor (Py.range1 (Z.of_nat k))
       ++ [HttpGet url headers timeout])
  /\ (List.length (Py.slice_to 300 (text r)) <= 300)%nat.
Proof.
  intros Hk Hf Hretried Hs H200 H429 H500 url headers. split.
  - rewrite fetch_enters_loop.
    destruct (range1_split k max_retries Hk) as [rest Hrange].
    rewrite Hrange, for_each_retried.
    + cbn [for_each]. unfold bind at 1.
      erewrite attempt_hard_fail; [reflexivity| |assumption..].
      rewrite app_nil_l, gets_retry_trace.
      unfold Py.range1. rewrite length_map, length_seq, Nat2Z.id. exact Hs.
    + intros i Hi. unfold Py.range1 in Hi.
      rewrite length_map, length_seq, Nat2Z.id in Hi. now apply Hretried.
    + now apply sleepable_waits.
  - unfold Py.slice_to. apply firstn_le_length.
Qed.

(** C7: when every one of the [max_retries] attempts is answered with a
    status of 500 or above (each wait base^attempt being one that
    [time.sleep] accepts), the fetcher makes exactly [max_retries]
    requests, each followed by its sleep, returns nothing and raises
    "Max retries exceeded while fetching clan data". *)
Theorem server_errors_exhaust_retries
    unicode_upper user_tag server clan_tag api_token max_retries
    backoff_factor timeout :
  forallb (fun a => sleepable (backoff_factor ^ a)) (Py.range1 max_retries)
  = true ->
  (forall i, (i < Z.to_nat max_retries)%nat ->
     exists r, server i = Responds r /\ (500 <= status_code r)%Z) ->
  let url := request_url unicode_upper clan_tag in
  let headers := request_headers api_token in
  let run := fetch_clan_data_auto_tables unicode_upper (Some user_tag) server
               (Some clan_tag) api_token max_retries backoff_factor timeout [] in
  run = (Raises exhausted,
         retry_trace url headers timeout backoff_factor (Py.range1 max_retries))
  /\ gets (snd run) = Z.to_nat max_retries.
Proof.
  intros Hf Hsrv url headers run.
  assert (Hrun : run = (Raises exhausted,
            retry_trace url headers timeout backoff_factor (Py.range1 max_retries))).
  { unfold run. rewrite fetch_enters_loop.
    rewrite <- (app_nil_r (Py.range1 max_retries)) at 1.
    rewrite for_each_retried; [reflexivity| |now apply sleepable_waits].
    intros i Hi. unfold Py.range1 in Hi. rewrite length_map, length_seq in Hi.
    change (gets [] + i)%nat with i.
    destruct (Hsrv i Hi) as [r [-> Hr]]. simpl.
    apply orb_true_iff. right. rewrite Z.geb_leb. now apply Z.leb_le. }
  split; [exact Hrun|].
  rewrite Hrun. simpl snd. rewrite gets_retry_trace.
  unfold Py.range1. now rewrite length_map, length_seq.
Qed.

(** C10: with [USER_TAG] unset the fetcher raises (an [AttributeError], at
    line 89 or 90) whatever its arguments, leaving the trace as it was: no
    request, no sleep.  And the value of a set [USER_TAG] changes neither
    the result nor the trace. *)
Theorem unset_user_tag_fails_before_any_request
    unicode_upper server clan_tag api_token max_retries backoff_factor timeout :
  (forall tr,
     fetch_clan_data_auto_tables unicode_upper None server clan_tag api_token
         max_retries backoff_factor timeout tr
     = (Raises (AttributeError
                  (Py.lit "'NoneType' object has no attribute 'replace'")),
        tr))
  /\ (forall u1 u2 tr,
        fetch_clan_data_auto_tables unicode_upper (Some u1) server clan_tag
            api_token max_retries backoff_factor timeout tr
        = fetch_clan_data_auto_tables unicode_upper (Some u2) server clan_tag
            api_token max_retries backoff_factor timeout tr).
Proof.
  split.
  - intros tr. destruct clan_tag; reflexivity.
  - intros u1 u2 tr. destruct clan_tag; reflexivity.
Qed.

(* ------------------------------------------------------------------ *)
(** ** The request URL *)

Definition not_hash (c : N) : bool := negb (N.eqb c (ord "#")).

Definition is_ascii (c : N) : bool := N.ltb c 128.

(** The URL as the specification words it: only leading '#' characters
    are stripped.  Not taken from the source; compared with it below. *)
Fixpoint strip_leading_hashes (s : pystr) : pystr :=
  match s with
  | c :: rest => if N.eqb c (ord "#") then strip_leading_hashes rest else s
  | [] => []
  end.

Definition url_as_specified (unicode_upper : N -> pystr) (clan_tag : pystr)
    : pystr :=
  clan_url (str_upper unicode_upper (strip_leading_hashes clan_tag)).

Lemma replace_hash_filter s :
  Py.replace_char (ord "#") [] s = filter not_hash s.
Proof.
  unfold Py.replace_char, not_hash.
  induction s as [|c s IH]; [reflexivity|].
  cbn [flat_map filter]. rewrite IH. now destruct (N.eqb c (ord "#")).
Qed.

Lemma str_upper_ascii unicode_upper s :
  forallb is_ascii s = true -> str_upper unicode_upper s = map ascii_upper s.
Proof.
  unfold str_upper, is_ascii.
  induction s as [|c s IH]; simpl; intros H; [reflexivity|].
  apply andb_true_iff in H. destruct H as [Hc Hs]. now rewrite Hc, IH.
Qed.

Lemma forallb_filter {A} (p q : A -> bool) l :
  forallb p l = true -> forallb p (filter q l) = true.
Proof.
  induction l as [|x l IH]; simpl; intros H; [reflexivity|].
  apply andb_true_iff in H. destruct H as [Hx Hl].
  destruct (q x); simpl; [rewrite Hx|]; auto.
Qed.

(** C4, amended: the URL of every request is the fixed prefix
    https://api.clashroyale.com/v1/clans/%23 followed by the upper-cased
    clan tag with every '#' removed, wherever it stands; it is the first
    thing the fetcher does when [USER_TAG] is set and an attempt is
    allowed; and for an ASCII tag the characters other than '#' are kept
    in order, each mapped to its upper case. *)
Theorem request_url_drops_every_hash
    unicode_upper user_tag server clan_tag api_token max_retries
    backoff_factor timeout :
  let clean := filter not_hash clan_tag in
  let url := Py.lit "https://api.clashroyale.com/v1/clans/%23"
             +++ str_upper unicode_upper clean in
  let GET := HttpGet url (request_headers api_token) timeout in
  let run := fetch_clan_data_auto_tables unicode_upper user_tag server
               (Some clan_tag) api_token max_retries backoff_factor timeout [] in
  Forall (fun ev => is_get ev = true -> ev = GET) (snd run)
  /\ (user_tag <> None -> (1 <= max_retries)%Z -> hd_error (snd run) = Some GET)
  /\ (forallb is_ascii clan_tag = true ->
      str_upper unicode_upper clean = map ascii_upper clean).
Proof.
  intros clean url GET run.
  assert (Hurl : request_url unicode_upper clan_tag = url).
  { unfold request_url, clan_url. now rewrite replace_hash_filter. }
  split; [|split].
  - destruct user_tag as [u|]; [|constructor].
    unfold run. rewrite fetch_enters_loop, Hurl.
    destruct (for_each _ _ _ _) as [res tr] eqn:Hrun.
    apply for_each_trace in Hrun. destruct Hrun as [ext [-> [Hall _]]].
    exact Hall.
  - intros Hu Hmax. destruct user_tag as [u|]; [|congruence].
    unfold run. rewrite fetch_enters_loop, Hurl.
    destruct (for_each _ _ _ _) as [res tr] eqn:Hrun.
    apply for_each_trace in Hrun. destruct Hrun as [ext [-> [_ Hfirst]]].
    destruct Hfirst as [ext' ->]; [|reflexivity].
    unfold Py.range1. destruct (Z.to_nat max_retries) eqn:E; [lia|discriminate].
  - intros Hascii. apply str_upper_ascii. now apply forallb_filter.
Qed.

(* ------------------------------------------------------------------ *)
(** ** Sample runs *)

Definition sample_response (status : Z) (body : json_outcome) : response :=
  {| status_code := status; text := Py.lit "body"; json_body := body |}.

Definition sample_clan : json :=
  JDict [(Py.lit "tag", JStr (Py.lit "#2PP")); (Py.lit "members", JInt 47)].

(** The responses 429, 429, 200. *)
Definition sample_rate_limited (i : nat) : get_outcome :=
  match i with
  | 0%nat | 1%nat => Responds (sample_response 429 (JsonRaises OtherException))
  | _ => Responds (sample_response 200 (JsonValue sample_clan))
  end.

(** The same response to every request. *)
Definition sample_always (status : Z) (i : nat) : get_outcome :=
  Responds (sample_response status (JsonRaises OtherException)).

Definition sample_fetch (server : nat -> get_outcome) (clan_tag : pystr)
    : result (Py.dict dataframe) * list event :=
  fetch_clan_data_auto_tables (fun c => [c]) (Some (Py.lit "#USER")) server
    (Some clan_tag) (Some (Py.lit "token"))
    default_max_retries default_backoff_factor default_timeout [].

Definition sample_get (clean_tag : string) : event :=
  HttpGet (Py.lit "https://api.clashroyale.com/v1/clans/%23" +++ Py.lit clean_tag)
          (request_headers (Some (Py.lit "token"))) default_timeout.

Lemma request_url_drops_every_hash_witness :
  hd_error (snd (sample_fetch (sample_always 404) (Py.lit "#2pp")))
    = Some (sample_get "2PP")
  /\ str_upper (fun c => [c]) (filter not_hash (Py.lit "#2pp"))
     = map ascii_upper (filter not_hash (Py.lit "#2pp")).
Proof.
  destruct (request_url_drops_every_hash (fun c => [c]) (Some (Py.lit "#USER"))
              (sample_always 404) (Py.lit "#2pp") (Some (Py.lit "token"))
              default_max_retries default_backoff_factor default_timeout)
    as [_ [Hfirst Hascii]].
  split.
  - apply Hfirst; [discriminate|unfold default_max_retries; lia].
  - apply Hascii. reflexivity.
Defined.

(** C4 as stated fails for a '#' that is not leading: for the tag "a#b"
    the request goes to .../%23AB, while stripping only a leading '#' and
    keeping the other characters gives .../%23A#B. *)
Lemma inner_hash_is_removed_too :
  hd_error (snd (sample_fetch (sample_always 404) (Py.lit "a#b")))
    = Some (sample_get "AB")
  /\ url_as_specified (fun c => [c]) (Py.lit "a#b")
     = Py.lit "https://api.clashroyale.com/v1/clans/%23A#B"
  /\ request_url (fun c => [c]) (Py.lit "a#b")
     <> url_as_specified (fun c => [c]) (Py.lit "a#b").
Proof. repeat split; try reflexivity. discriminate. Qed.

Lemma rate_limited_twice_then_success_witness :
  sample_fetch sample_rate_limited (Py.lit "#2pp")
    = (Returns
         [(Py.lit "root",
           {| df_columns := [Py.lit "tag"; Py.lit "members"];
              df_records := [[(Py.lit "tag", JStr (Py.lit "#2PP"));
                              (Py.lit "members", JInt 47)]] |})],
       [sample_get "2PP"; Sleep ((3 # 2) ^ 1);
        sample_get "2PP"; Sleep ((3 # 2) ^ 2);
        sample_get "2PP"])
  /\ (3 # 2) ^ 1 < (3 # 2) ^ 2.
Proof.
  destruct (rate_limited_twice_then_success (fun c => [c]) (Py.lit "#USER")
              sample_rate_limited (Py.lit "#2pp") (Some (Py.lit "token"))
              default_max_retries default_backoff_factor default_timeout
              (sample_response 429 (JsonRaises OtherException))
              (sample_response 429 (JsonRaises OtherException))
              (sample_response 200 (JsonValue sample_clan)) sample_clan)
    as [Hrun Hwaits]; try reflexivity.
  - unfold default_max_retries. lia.
  - split; [exact Hrun|]. apply Hwaits. reflexivity.
Defined.

Lemma hard_fail_is_immediate_witness :
  sample_fetch (sample_always 404) (Py.lit "#2pp")
    = (Raises (RuntimeError (Py.lit "HTTP 404: body")), [sample_get "2PP"])
  /\ (List.length (Py.slice_to 300 (Py.lit "body")) <= 300)%nat.
Proof.
  apply (hard_fail_is_immediate (fun c => [c]) (Py.lit "#USER")
           (sample_always 404) (Py.lit "#2pp") (Some (Py.lit "token"))
           default_max_retries default_backoff_factor default_timeout
           0%nat (sample_response 404 (JsonRaises OtherException)));
    try reflexivity; try discriminate; try lia.
  simpl. lia.
Defined.

Lemma server_errors_exhaust_retries_witness :
  fst (sample_fetch (sample_always 500) (Py.lit "#2pp")) = Raises exhausted
  /\ gets (snd (sample_fetch (sample_always 500) (Py.lit "#2pp"))) = 5%nat.
Proof.
  destruct (server_errors_exhaust_retries (fun c => [c]) (Py.lit "#USER")
              (sample_always 500) (Py.lit "#2pp") (Some (Py.lit "token"))
              default_max_retries default_backoff_factor default_timeout)
    as [Hrun Hgets].
  - reflexivity.
  - intros i _. eexists. split; [reflexivity|]. simpl. lia.
  - split; [|exact Hgets]. unfold sample_fetch. now rewrite Hrun.
Defined.

(* ================================================================== *)
(** * Further properties of the flattener *)

Lemma append_all_rows out es name :
  rows_of (append_all out es) name = rows_of out name ++ sent_to name es.
Proof.
  unfold rows_of at 1. rewrite append_all_get.
  destruct (sent_to name es); [|reflexivity].
  now rewrite app_nil_r.
Qed.

Lemma dd_append_fresh {V} (d : Py.dict (list V)) k (x : V) :
  ~ In k (Py.keys d) -> Py.dd_append d k x = d ++ [(k, [x])].
Proof.
  induction d as [|[k' xs] d IH]; simpl; intros Hk; [reflexivity|].
  destruct (Py.str_eqb k' k) eqn:E.
  - apply str_eqb_eq in E. tauto.
  - rewrite IH by tauto. reflexivity.
Qed.

Lemma append_all_keys out es :
  exists extra, Py.keys (append_all out es) = Py.keys out ++ extra.
Proof.
  revert out. induction es as [|[n r] es IH]; intros out.
  - exists []. simpl. now rewrite app_nil_r.
  - unfold append_all in *. simpl.
    destruct (IH (Py.dd_append out n r)) as [extra ->].
    destruct (dd_append_keys out n r) as [extra' [-> _]].
    exists (extra' ++ extra). now rewrite app_assoc.
Qed.

(** X1: flattening yields no table at all exactly when the traversal
    meets no object with a scalar field (a bare scalar, arrays of scalars,
    objects holding only such things). *)
Theorem flatten_json_empty_iff (obj : json) (parent_key : pystr) :
  _flatten_json obj parent_key None = [] <->
  forall ks d, descends obj ks d -> has_scalar_field d = false.
Proof.
  split.
  - intros Hnil ks d Hd. destruct (has_scalar_field d) eqn:E; [|reflexivity].
    assert (Hin : In (dot_join parent_key ks)
                     (Py.keys (_flatten_json obj parent_key None))).
    { apply flatten_json_names. exists ks, d. auto. }
    rewrite Hnil in Hin. contradiction.
  - intros Hnone. destruct (_flatten_json obj parent_key None) as [|[n rows] rest] eqn:E;
      [reflexivity|].
    assert (Hin : In n (Py.keys (_flatten_json obj parent_key None)))
      by (rewrite E; now left).
    apply flatten_json_names in Hin. destruct Hin as [ks [d [Hd [Hs _]]]].
    rewrite (Hnone ks d Hd) in Hs. discriminate.
Qed.

(** X2: flattening into an existing [defaultdict(list)] [out], as the
    recursive calls do, keeps the keys of [out] in place (new ones come
    after) and appends, table by table, the rows a fresh flattening would
    produce after the rows already there. *)
Theorem flatten_into_existing (obj : json) (parent_key : pystr) (out : tables) :
  (exists new_keys,
     Py.keys (_flatten_json obj parent_key (Some out)) = Py.keys out ++ new_keys)
  /\ forall name,
       rows_of (_flatten_json obj parent_key (Some out)) name
       = rows_of out name ++ rows_of (_flatten_json obj parent_key None) name.
Proof.
  unfold _flatten_json. rewrite !flatten_into_appends. split.
  - apply append_all_keys.
  - intros name. rewrite !append_all_rows. reflexivity.
Qed.

(** X3: the elements of an array are peers of one table: the rows an
    array sends to a table are those its elements send to it, element after
    element. *)
Theorem flatten_list_rows (items : list json) (parent_key name : pystr) :
  rows_of (_flatten_json (JList items) parent_key None) name
  = flat_map (fun item => rows_of (_flatten_json item parent_key None) name) items.
Proof.
  rewrite flatten_json_appends, append_all_rows. simpl rows_of at 1.
  change (appends (JList items) parent_key)
    with (flat_map (fun item => appends item parent_key) items).
  rewrite sent_to_flat_map. simpl.
  induction items as [|x items IH]; [reflexivity|].
  cbn [flat_map]. rewrite IH, flatten_json_appends, append_all_rows. reflexivity.
Qed.

(** The table names of the result are pairwise different, also when
    flattening into a mapping whose names already were. *)
Lemma flatten_json_distinct_names (obj : json) (parent_key : pystr)
    (out : option tables) :
  match out with
  | Some o => NoDup (Py.keys o)
  | None => True
  end ->
  NoDup (Py.keys (_flatten_json obj parent_key out)).
Proof.
  intros Hout. unfold _flatten_json. rewrite flatten_into_appends.
  apply append_all_NoDup. destruct out; [exact Hout|constructor].
Qed.

(** A row as line 62 builds it: distinct keys, scalar values only. *)
Definition flat_row (r : row) : Prop :=
  NoDup (Py.keys r) /\ Forall (fun kv => is_dict_or_list (snd kv) = false) r.

Lemma dict_set_keys_in {V} (d : Py.dict V) k (v : V) k' :
  In k' (Py.keys (Py.dict_set d k v)) <-> In k' (Py.keys d) \/ k' = k.
Proof.
  induction d as [|[k0 v0] d IH]; simpl.
  - intuition.
  - destruct (Py.str_eqb k0 k) eqn:E; simpl.
    + apply str_eqb_eq in E. subst. intuition.
    + rewrite IH. intuition.
Qed.

Lemma dict_set_NoDup {V} (d : Py.dict V) k (v : V) :
  NoDup (Py.keys d) -> NoDup (Py.keys (Py.dict_set d k v)).
Proof.
  induction d as [|[k0 v0] d IH]; simpl; intros Hd.
  - repeat constructor. intros [].
  - inversion Hd as [|? ? Hk Hd']; subst.
    destruct (Py.str_eqb k0 k) eqn:E; simpl.
    + constructor; assumption.
    + constructor; [|auto]. rewrite dict_set_keys_in.
      apply str_eqb_neq in E. intros [H|H]; [contradiction|congruence].
Qed.

Lemma scalar_fields_flat items :
  forall r, flat_row r -> flat_row (scalar_fields items r).
Proof.
  induction items as [|[k v] items IH]; simpl; intros r Hr; [exact Hr|].
  destruct (is_dict_or_list v) eqn:Hv; [now apply IH|].
  apply IH. destruct Hr as [Hnd Hall]. split.
  - now apply dict_set_NoDup.
  - apply (dict_set_Forall (fun x => is_dict_or_list x = false)); assumption.
Qed.

Lemma dd_append_rows (P : row -> Prop) out name (r : row) :
  Forall (fun t => Forall P (snd t)) out -> P r ->
  Forall (fun t => Forall P (snd t)) (Py.dd_append out name r).
Proof.
  intros Hout Hr. induction Hout as [|[k rows] out Hk Hout IH]; simpl.
  - repeat constructor. exact Hr.
  - destruct (Py.str_eqb k name); constructor; trivial.
    simpl in *. apply Forall_app. split; [exact Hk|now constructor].
Qed.

Lemma append_all_rows_Forall (P : row -> Prop) es :
  Forall (fun e => P (snd e)) es ->
  forall out, Forall (fun t => Forall P (snd t)) out ->
              Forall (fun t => Forall P (snd t)) (append_all out es).
Proof.
  induction 1 as [|[n r] es Hr _ IH]; intros out Hout; [exact Hout|].
  apply IH. now apply dd_append_rows.
Qed.

(** X4: every row of every table is flat: its keys are pairwise different
    and none of its values is an object or an array. *)
Theorem flatten_json_rows_flat (obj : json) (parent_key : pystr) :
  Forall (fun t => Forall flat_row (snd t)) (_flatten_json obj parent_key None).
Proof.
  rewrite flatten_json_appends.
  apply append_all_rows_Forall; [|constructor].
  apply Forall_forall. intros [n r] Hin. simpl.
  destruct (appends_sound _ _ _ _ Hin) as [ks [d [_ [-> _]]]].
  apply scalar_fields_flat. split; constructor.
Qed.

(** X5: an object with a scalar field (distinct keys) puts its own table
    last in the mapping, after the tables of all its nested fields, and
    that table holds the one row of its scalar fields, in their order:
    no nested field ever feeds the table of its parent. *)
Theorem flatten_object_own_table_last (items : Py.dict json) (parent_key : pystr) :
  distinct_keys items = true ->
  has_scalar_field items = true ->
  exists nested_tables,
    _flatten_json (JDict items) parent_key None
    = nested_tables ++ [(parent_key, [filter is_scalar_field items])]
    /\ ~ In parent_key (Py.keys nested_tables).
Proof.
  intros Hd Hs. apply distinct_keys_NoDup in Hd.
  rewrite flatten_json_appends, appends_dict, append_all_app.
  rewrite (scalar_fields_filter items [] Hd). cbn [app].
  assert (Hne : filter is_scalar_field items <> []).
  { rewrite <- (app_nil_l (filter _ _)), <- (scalar_fields_filter items [] Hd).
    apply scalar_fields_not_nil. now right. }
  set (nested := append_all [] (flat_map (field_appends parent_key) items)).
  assert (Hfresh : ~ In parent_key (Py.keys nested)).
  { unfold nested. rewrite append_all_keys_in. intros [[]|Hin].
    apply sent_to_nil_iff in Hin; [exact Hin|].
    rewrite sent_to_flat_map. apply flat_map_all_nil.
    intros [k v] _. unfold field_appends. cbn [fst snd].
    destruct (is_dict_or_list v); [|reflexivity].
    apply nested_field_not_parent. }
  exists nested. split; [|exact Hfresh].
  destruct (filter is_scalar_field items) as [|x r] eqn:E; [congruence|].
  unfold append_all. cbn [fold_left fst snd].
  now apply dd_append_fresh.
Qed.

Lemma flatten_object_own_table_last_witness :
  exists nested_tables,
    _flatten_json
      (JDict [(Py.lit "tag", JInt 1);
              (Py.lit "location", JDict [(Py.lit "id", JInt 2)])])
      root None
    = nested_tables ++ [(root, [[(Py.lit "tag", JInt 1)]])]
    /\ ~ In root (Py.keys nested_tables).
Proof.
  apply (flatten_object_own_table_last
           [(Py.lit "tag", JInt 1);
            (Py.lit "location", JDict [(Py.lit "id", JInt 2)])] root);
    reflexivity.
Defined.

(* ================================================================== *)
(** * Further properties of the writer *)

Lemma kept_char_underscore : kept_char (ord "_").
Proof. unfold kept_char, ord. simpl. lia. Qed.

Lemma safe_name_kept name : Forall kept_char (safe_name name).
Proof.
  rewrite safe_name_map. apply Forall_forall. intros c Hin.
  apply in_map_iff in Hin. destruct Hin as [c0 [<- _]].
  destruct (unsafe_char c0) eqn:E.
  - exact kept_char_underscore.
  - now apply unsafe_char_false.
Qed.

Lemma safe_name_of_kept name : Forall kept_char name -> safe_name name = name.
Proof.
  intros H. rewrite safe_name_map.
  induction H as [|c l Hc _ IH]; [reflexivity|].
  simpl. apply unsafe_char_false in Hc. now rewrite Hc, IH.
Qed.

(** X6: a safe name consists of characters of [[A-Za-z0-9_.-]] only, and
    sanitising it again changes nothing. *)
Theorem safe_name_is_safe (name : pystr) :
  Forall kept_char (safe_name name)
  /\ safe_name (safe_name name) = safe_name name.
Proof.
  split; [apply safe_name_kept|apply safe_name_of_kept, safe_name_kept].
Qed.

(** X7: sanitising leaves a name as it is exactly when all its characters
    are of [[A-Za-z0-9_.-]]. *)
Theorem safe_name_unchanged_iff (name : pystr) :
  safe_name name = name <-> Forall kept_char name.
Proof.
  split.
  - intros <-. apply safe_name_kept.
  - apply safe_name_of_kept.
Qed.

(** The separator [os.path.join] inserts after [a]. *)
Definition join_separator (a : pystr) : pystr :=
  match rev a with
  | [] => []
  | l :: _ => if N.eqb l (ord "/") then [] else Py.lit "/"
  end.

Lemma safe_name_no_slash name : ~ In (ord "/") (safe_name name).
Proof.
  intros Hin. pose proof (safe_name_kept name) as Hsafe.
  rewrite Forall_forall in Hsafe. specialize (Hsafe _ Hin).
  unfold kept_char, ord in Hsafe. simpl in Hsafe. lia.
Qed.

Lemma save_table_not_empty output_dir table_name df index :
  df_empty df = false ->
  save_table output_dir index (table_name, df)
  = ToCsv (output_dir +++ join_separator output_dir
           +++ safe_name table_name +++ Py.lit ".csv") df index.
Proof.
  intros Hne. unfold save_table. rewrite Hne. f_equal.
  unfold path_join, join_separator.
  destruct (safe_name table_name +++ Py.lit ".csv") as [|c rest] eqn:E.
  - destruct (safe_name table_name); discriminate.
  - assert (Hc : N.eqb c (ord "/") = false).
    { apply N.eqb_neq. intros ->.
      destruct (safe_name table_name) as [|c' s'] eqn:Es.
      - inversion E.
      - inversion E; subst. apply (safe_name_no_slash table_name).
        rewrite Es. now left. }
    rewrite Hc. destruct (rev output_dir) as [|l tl] eqn:Er.
    + assert (output_dir = []) as ->
        by (rewrite <- (rev_involutive output_dir), Er; reflexivity).
      reflexivity.
    + destruct (N.eqb l (ord "/")); reflexivity.
Qed.

(** X8: a table that is not empty is written to the file
    <output_dir><separator><safe name>.csv, the separator being "/" unless
    the directory is empty or ends with "/"; the file name holds no "/", so
    the file lies directly in the output directory whatever the table
    name. *)
Theorem csv_file_lies_in_output_dir (output_dir table_name : pystr)
    (df : dataframe) (index : bool) :
  df_empty df = false ->
  save_table output_dir index (table_name, df)
  = ToCsv (output_dir +++ join_separator output_dir
           +++ safe_name table_name +++ Py.lit ".csv") df index
  /\ ~ In (ord "/") (safe_name table_name +++ Py.lit ".csv").
Proof.
  intros Hne. split; [now apply save_table_not_empty|].
  intros Hin. apply in_app_or in Hin. destruct Hin as [Hin|Hin].
  - exact (safe_name_no_slash table_name Hin).
  - simpl in Hin. unfold ord in Hin. simpl in Hin.
    repeat (destruct Hin as [Hin|Hin]; [discriminate|]). exact Hin.
Qed.

Lemma csv_file_lies_in_output_dir_witness :
  save_table (Py.lit "download") false
             (Py.lit "root/../x", DataFrame [[(Py.lit "a", JInt 1)]])
  = ToCsv (Py.lit "download/root_.._x.csv")
          (DataFrame [[(Py.lit "a", JInt 1)]]) false
  /\ ~ In (ord "/") (safe_name (Py.lit "root/../x") +++ Py.lit ".csv").
Proof.
  apply (csv_file_lies_in_output_dir (Py.lit "download") (Py.lit "root/../x")
           (DataFrame [[(Py.lit "a", JInt 1)]]) false).
  reflexivity.
Defined.

(** X10: sanitising does not keep table names apart: two names that differ
    only in characters outside [[A-Za-z0-9_.-]] get the same file, so the
    later table overwrites the earlier one. *)
Theorem unsafe_characters_collide (before after : pystr) (c1 c2 : N)
    (output_dir : pystr) (index : bool) (df1 df2 : dataframe) :
  unsafe_char c1 = true -> unsafe_char c2 = true ->
  df_empty df1 = false -> df_empty df2 = false ->
  exists file_path,
    save_table output_dir index (before +++ c1 :: after, df1)
      = ToCsv file_path df1 index
    /\ save_table output_dir index (before +++ c2 :: after, df2)
      = ToCsv file_path df2 index.
Proof.
  intros H1 H2 Hd1 Hd2.
  assert (Hsame : safe_name (before +++ c1 :: after)
                  = safe_name (before +++ c2 :: after)).
  { rewrite !safe_name_map, !map_app. simpl. now rewrite H1, H2. }
  eexists. split.
  - apply save_table_not_empty. exact Hd1.
  - rewrite Hsame. apply save_table_not_empty. exact Hd2.
Qed.

Lemma unsafe_characters_collide_witness :
  exists file_path,
    save_table (Py.lit "download") false
               (Py.lit "root.a b", DataFrame [[(Py.lit "x", JInt 1)]])
      = ToCsv file_path (DataFrame [[(Py.lit "x", JInt 1)]]) false
    /\ save_table (Py.lit "download") false
                  (Py.lit "root.a#b", DataFrame [[(Py.lit "y", JInt 2)]])
      = ToCsv file_path (DataFrame [[(Py.lit "y", JInt 2)]]) false.
Proof.
  apply (unsafe_characters_collide (Py.lit "root.a") (Py.lit "b")
           (ord " ") (ord "#") (Py.lit "download") false
           (DataFrame [[(Py.lit "x", JInt 1)]])
           (DataFrame [[(Py.lit "y", JInt 2)]])); reflexivity.
Defined.

(* ================================================================== *)
(** * Further properties of the fetcher *)

(** An outcome answered by a sleep and the next attempt: status 429,
    status 500 or above, a [RequestException] of [requests.get], or a 200
    whose [json()] raises a [RequestException] (the [except] clause of
    line 137 covers the whole [try] body). *)
Definition transient (o : get_outcome) : bool :=
  match o with
  | Responds r =>
      Z.eqb (status_code r) 429 || Z.geb (status_code r) 500
      || (Z.eqb (status_code r) 200
          && match json_body r with
             | JsonRaises e => is_request_exception e
             | JsonValue _ => false
             end)
  | GetRaises e => is_request_exception e
  end.

(** An outcome whose exception [e] is none of [requests]: raised by
    [requests.get], or by [json()] on a 200 response. *)
Definition raises_foreign (o : get_outcome) (e : exn) : Prop :=
  is_request_exception e = false
  /\ (o = GetRaises e
      \/ exists r, o = Responds r /\ status_code r = 200%Z
                   /\ json_body r = JsonRaises e).

Definition sleeps (tr : list event) : nat :=
  List.length (filter (fun ev => negb (is_get ev)) tr).

Section MoreAttempts.

Variable server : nat -> get_outcome.
Variables (url : pystr) (headers : Py.dict pystr).
Variables (backoff_factor : Q) (timeout : Z).

Let body := attempt_body server url headers backoff_factor timeout.
Let GET := HttpGet url headers timeout.
Let retries := retry_trace url headers timeout backoff_factor.

(** All the ways one attempt can go. *)
Lemma attempt_cases attempt tr res tr' :
  body attempt tr = (res, tr') ->
  (res = Returns NextIteration
   /\ tr' = tr ++ [GET; Sleep (backoff_factor ^ attempt)]
   /\ transient (server (gets tr)) = true
   /\ sleepable (backoff_factor ^ attempt) = true)
  \/ (tr' = tr ++ [GET]
      /\ ((exists e, res = Raises e)
          \/ exists r data,
               res = Returns (ReturnValue (dataframes (_flatten_json data root None)))
               /\ server (gets tr) = Responds r
               /\ status_code r = 200%Z
               /\ json_body r = JsonValue data)).
Proof.
  unfold body, attempt_body, try_except, bind, requests_get, response_json,
    time_sleep, raise, ret, transient, sleepable.
  assert (Hc := sleep_error_not_caught (backoff_factor ^ attempt)).
  destruct (server (gets tr)) as [r|e].
  - destruct (status_code r =? 429)%Z eqn:E429;
      [|destruct (status_code r >=? 500)%Z eqn:E500].
    + destruct (sleep_error (backoff_factor ^ attempt)) as [se|];
        [rewrite (Hc se eq_refl)|]; intros [= <- <-]; rewrite <- ?app_assoc.
      * right. split; [reflexivity|]. left. eexists. reflexivity.
      * left. repeat split.
    + destruct (sleep_error (backoff_factor ^ attempt)) as [se|];
        [rewrite (Hc se eq_refl)|]; intros [= <- <-]; rewrite <- ?app_assoc.
      * right. split; [reflexivity|]. left. eexists. reflexivity.
      * left. repeat split.
    + destruct (status_code r =? 200)%Z eqn:E200; cbn [negb orb andb].
      * destruct (json_body r) as [data|e] eqn:Ej.
        -- intros [= <- <-]. right. split; [reflexivity|]. right.
           exists r, data. repeat split; [now apply Z.eqb_eq|exact Ej].
        -- destruct (is_request_exception e) eqn:Ee.
           ++ destruct (sleep_error (backoff_factor ^ attempt)) as [se|];
                intros [= <- <-]; rewrite <- ?app_assoc.
              ** right. split; [reflexivity|]. left. eexists. reflexivity.
              ** left. repeat split.
           ++ intros [= <- <-]. right. split; [reflexivity|]. left.
              eexists. reflexivity.
      * intros [= <- <-]. right. split; [reflexivity|]. left.
        eexists. reflexivity.
  - destruct (is_request_exception e) eqn:Ee.
    + destruct (sleep_error (backoff_factor ^ attempt)) as [se|];
        intros [= <- <-]; rewrite <- ?app_assoc.
      * right. split; [reflexivity|]. left. eexists. reflexivity.
      * left. repeat split.
    + intros [= <- <-]. right. split; [reflexivity|]. left.
      eexists. reflexivity.
Qed.

Lemma attempt_transient attempt tr :
  transient (server (gets tr)) = true ->
  sleepable (backoff_factor ^ attempt) = true ->
  body attempt tr =
    (Returns NextIteration, tr ++ [GET; Sleep (backoff_factor ^ attempt)]).
Proof.
  intros Ht Hw. unfold sleepable in Hw.
  unfold body, attempt_body, try_except, bind, requests_get, response_json,
    time_sleep, raise, ret.
  destruct (sleep_error (backoff_factor ^ attempt)); [discriminate|].
  unfold transient in Ht. destruct (server (gets tr)) as [r|e].
  - destruct (status_code r =? 429)%Z; [now rewrite <- app_assoc|].
    destruct (status_code r >=? 500)%Z; [now rewrite <- app_assoc|].
    cbn [orb] in Ht. apply andb_true_iff in Ht. destruct Ht as [H200 Hj].
    rewrite H200. cbn [negb].
    destruct (json_body r) as [data|e]; [discriminate|].
    now rewrite Hj, <- app_assoc.
  - now rewrite Ht, <- app_assoc.
Qed.


Lemma attempt_foreign attempt tr e :
  raises_foreign (server (gets tr)) e ->
  body attempt tr = (Raises e, tr ++ [GET]).
Proof.
  intros [He Ho].
  unfold body, attempt_body, try_except, bind, requests_get, response_json,
    time_sleep, raise, ret.
  destruct Ho as [->|[r [-> [H200 Hj]]]].
  - now rewrite He.
  - rewrite H200, Hj. simpl. now rewrite He.
Qed.

Lemma for_each_transient attempts :
  forall rest after tr,
    (forall i, (i < List.length attempts)%nat ->
               transient (server (gets tr + i)) = true) ->
    Forall (fun a => sleepable (backoff_factor ^ a) = true) attempts ->
    for_each body (attempts ++ rest) after tr =
      for_each body rest after (tr ++ retries attempts).
Proof.
  induction attempts as [|a attempts IH]; intros rest after tr Hsrv Hf.
  - simpl. now rewrite app_nil_r.
  - inversion Hf as [|? ? Ha Hf']; subst.
    cbn [app for_each]. unfold bind at 1.
    rewrite attempt_transient.
    + rewrite IH; trivial.
      * unfold retries, retry_trace. cbn [flat_map]. fold GET.
        now rewrite <- app_assoc.
      * intros i Hi. rewrite gets_app.
        replace (gets [GET; Sleep (backoff_factor ^ a)]) with 1%nat by reflexivity.
        replace (gets tr + 1 + i)%nat with (gets tr + S i)%nat by lia.
        apply Hsrv. simpl. lia.
    + specialize (Hsrv 0%nat). rewrite Nat.add_0_r in Hsrv. apply Hsrv. simpl. lia.
    + exact Ha.
Qed.

(** Every run of the loop: some attempts are retried, then either the
    attempts are used up, or one more request ends the run. *)
Lemma for_each_cases attempts e0 :
  forall tr res tr',
    for_each body attempts (raise e0) tr = (res, tr') ->
    exists done rest,
      attempts = done ++ rest
      /\ ((rest = [] /\ res = Raises e0 /\ tr' = tr ++ retries done)
          \/ (rest <> [] /\ tr' = tr ++ retries done ++ [GET]
              /\ ((exists e, res = Raises e)
                  \/ exists r data,
                       res = Returns (dataframes (_flatten_json data root None))
                       /\ server (gets tr + List.length done) = Responds r
                       /\ status_code r = 200%Z
                       /\ json_body r = JsonValue data))).
Proof.
  induction attempts as [|a attempts IH]; intros tr res tr' Hrun.
  - inversion Hrun; subst. exists [], []. split; [reflexivity|]. left.
    simpl. now rewrite app_nil_r.
  - cbn [for_each] in Hrun. unfold bind at 1 in Hrun.
    destruct (body a tr) as [res1 tr1] eqn:Hbody.
    destruct (attempt_cases _ _ _ _ Hbody)
      as [[-> [-> [_ _]]]|[-> [[e ->]|[r [data [-> [Hs [H200 Hj]]]]]]]].
    + apply IH in Hrun. destruct Hrun as [done [rest [-> Hcases]]].
      exists (a :: done), rest. split; [reflexivity|].
      assert (Htr : forall tl, (tr ++ [GET; Sleep (backoff_factor ^ a)])
                                ++ retries done ++ tl
                               = tr ++ retries (a :: done) ++ tl).
      { intros tl. unfold retries, retry_trace. cbn [flat_map]. fold GET.
        now rewrite <- !app_assoc. }
      destruct Hcases as [[-> [-> ->]]|[Hne [-> Hres]]].
      * left. repeat split. specialize (Htr []). now rewrite !app_nil_r in Htr.
      * right. split; [exact Hne|]. split; [apply Htr|].
        destruct Hres as [He|[r [data [-> [Hs Hrest]]]]]; [now left|right].
        exists r, data. split; [reflexivity|]. split; [|exact Hrest].
        rewrite gets_app in Hs.
        replace (gets [GET; Sleep (backoff_factor ^ a)]) with 1%nat in Hs
          by reflexivity.
        cbn [List.length].
        replace (gets tr + S (List.length done))%nat
          with (gets tr + 1 + List.length done)%nat by lia.
        exact Hs.
    + inversion Hrun; subst. exists [], (a :: attempts).
      split; [reflexivity|]. right. split; [discriminate|].
      split; [reflexivity|]. left. eexists. reflexivity.
    + unfold ret in Hrun. inversion Hrun; subst. exists [], (a :: attempts).
      split; [reflexivity|]. right. split; [discriminate|].
      split; [reflexivity|]. right. exists r, data.
      rewrite Nat.add_0_r. auto.
Qed.

End MoreAttempts.

Lemma range1_prefix (n : Z) (done rest : list Z) :
  Py.range1 n = done ++ rest ->
  done = Py.range1 (Z.of_nat (List.length done))
  /\ (List.length done + List.length rest = Z.to_nat n)%nat.
Proof.
  unfold Py.range1. rewrite Nat2Z.id. generalize (Z.to_nat n) as m.
  generalize 1%nat as s. revert rest.
  induction done as [|a done IH]; intros rest s m H.
  - simpl in *. split; [reflexivity|].
    rewrite <- H, length_map, length_seq. reflexivity.
  - destruct m as [|m]; [discriminate|]. simpl in H. inversion H as [[Ha Hrest]].
    destruct (IH _ _ _ Hrest) as [Hdone Hlen].
    split; [|simpl; lia]. simpl. f_equal. exact Hdone.
Qed.

Lemma sleeps_retry_trace url headers timeout f attempts :
  sleeps (retry_trace url headers timeout f attempts) = List.length attempts.
Proof.
  induction attempts as [|a attempts IH]; [reflexivity|].
  unfold sleeps, retry_trace in *. cbn [flat_map app filter is_get negb List.length].
  now rewrite IH.
Qed.

(* ------------------------------------------------------------------ *)
(** ** Whole runs of the fetcher *)

Lemma range1_length n : List.length (Py.range1 n) = Z.to_nat n.
Proof. unfold Py.range1. now rewrite length_map, length_seq. Qed.

Lemma range1_of_nat_length k : List.length (Py.range1 (Z.of_nat k)) = k.
Proof. now rewrite range1_length, Nat2Z.id. Qed.

(** A run that meets [k] transient outcomes and then reaches attempt
    [k + 1] continues there. *)
Lemma fetch_after_transient unicode_upper user_tag server clan_tag api_token
    max_retries backoff_factor timeout (k : nat) :
  (k < Z.to_nat max_retries)%nat ->
  forallb (fun a => sleepable (backoff_factor ^ a)) (Py.range1 (Z.of_nat k))
  = true ->
  (forall i, (i < k)%nat -> transient (server i) = true) ->
  let url := request_url unicode_upper clan_tag in
  let headers := request_headers api_token in
  exists rest,
    fetch_clan_data_auto_tables unicode_upper (Some user_tag) server
        (Some clan_tag) api_token max_retries backoff_factor timeout []
    = for_each (attempt_body server url headers backoff_factor timeout)
               (Z.of_nat (S k) :: rest) (raise exhausted)
               (retry_trace url headers timeout backoff_factor
                            (Py.range1 (Z.of_nat k)))
    /\ gets (retry_trace url headers timeout backoff_factor
                         (Py.range1 (Z.of_nat k))) = k.
Proof.
  intros Hk Hf Htr url headers.
  destruct (range1_split k max_retries Hk) as [rest Hrange].
  exists rest. split.
  - rewrite fetch_enters_loop, Hrange, for_each_transient; [reflexivity| |].
    + intros i Hi. rewrite range1_of_nat_length in Hi. now apply Htr.
    + now apply sleepable_waits.
  - now rewrite gets_retry_trace, range1_of_nat_length.
Qed.

(** X11: transient failures of any kind (429, 500 and above, a network
    error of [requests.get], a 200 whose body [json()] rejects with a
    [RequestException]) share one attempt counter: when all [max_retries]
    attempts fail so, each wait base^attempt being one that [time.sleep]
    accepts, the run makes that many requests, sleeps base^attempt after
    each, the last included, and raises the retries-exhausted error. *)
Theorem transient_failures_exhaust_retries
    unicode_upper user_tag server clan_tag api_token max_retries
    backoff_factor timeout :
  forallb (fun a => sleepable (backoff_factor ^ a)) (Py.range1 max_retries)
  = true ->
  (forall i, (i < Z.to_nat max_retries)%nat -> transient (server i) = true) ->
  fetch_clan_data_auto_tables unicode_upper (Some user_tag) server
      (Some clan_tag) api_token max_retries backoff_factor timeout []
  = (Raises exhausted,
     retry_trace (request_url unicode_upper clan_tag) (request_headers api_token)
                 timeout backoff_factor (Py.range1 max_retries)).
Proof.
  intros Hf Hsrv. rewrite fetch_enters_loop.
  rewrite <- (app_nil_r (Py.range1 max_retries)) at 1.
  rewrite for_each_transient; [reflexivity| |now apply sleepable_waits].
  intros i Hi. rewrite range1_length in Hi. now apply Hsrv.
Qed.

(** X12: a 200 response with a JSON body at attempt k + 1, after k
    transient failures of any kind whose waits [time.sleep] accepts, ends
    the run with one dataset per table of its flattened body, in the order
    of the tables; the trace is the k retried requests with their sleeps
    and the last request, with no sleep after it. *)
Theorem success_after_transient_failures
    unicode_upper user_tag server clan_tag api_token max_retries
    backoff_factor timeout (k : nat) (r : response) (data : json) :
  (k < Z.to_nat max_retries)%nat ->
  forallb (fun a => sleepable (backoff_factor ^ a)) (Py.range1 (Z.of_nat k))
  = true ->
  (forall i, (i < k)%nat -> transient (server i) = true) ->
  server k = Responds r -> status_code r = 200%Z -> json_body r = JsonValue data ->
  let url := request_url unicode_upper clan_tag in
  let headers := request_headers api_token in
  fetch_clan_data_auto_tables unicode_upper (Some user_tag) server
      (Some clan_tag) api_token max_retries backoff_factor timeout []
  = (Returns (map (fun t => (fst t, DataFrame (snd t)))
                  (_flatten_json data root None)),
     retry_trace url headers timeout backoff_factor (Py.range1 (Z.of_nat k))
     ++ [HttpGet url headers timeout]).
Proof.
  intros Hk Hf Htr Hs H200 Hj url headers. subst url headers.
  destruct (fetch_after_transient unicode_upper user_tag server clan_tag
              api_token max_retries backoff_factor timeout k Hk Hf Htr)
    as [rest [-> Hgets]].
  cbn [for_each]. unfold bind at 1.
  erewrite attempt_success; [|rewrite Hgets; exact Hs|exact H200|exact Hj].
  unfold ret. now rewrite dataframes_flatten.
Qed.

(** X13: an exception that is not a [RequestException], raised by
    [requests.get] or by [json()] on a 200 response, is not retried: it
    leaves the fetcher at once, after that request, with no sleep (the
    earlier attempts, if any, having been retried after waits that
    [time.sleep] accepts). *)
Theorem foreign_exception_is_not_retried
    unicode_upper user_tag server clan_tag api_token max_retries
    backoff_factor timeout (k : nat) (e : exn) :
  (k < Z.to_nat max_retries)%nat ->
  forallb (fun a => sleepable (backoff_factor ^ a)) (Py.range1 (Z.of_nat k))
  = true ->
  (forall i, (i < k)%nat -> transient (server i) = true) ->
  raises_foreign (server k) e ->
  let url := request_url unicode_upper clan_tag in
  let headers := request_headers api_token in
  fetch_clan_data_auto_tables unicode_upper (Some user_tag) server
      (Some clan_tag) api_token max_retries backoff_factor timeout []
  = (Raises e,
     retry_trace url headers timeout backoff_factor (Py.range1 (Z.of_nat k))
     ++ [HttpGet url headers timeout]).
Proof.
  intros Hk Hf Htr He url headers. subst url headers.
  destruct (fetch_after_transient unicode_upper user_tag server clan_tag
              api_token max_retries backoff_factor timeout k Hk Hf Htr)
    as [rest [-> Hgets]].
  cbn [for_each]. unfold bind at 1.
  erewrite attempt_foreign; [reflexivity|].
  rewrite Hgets. exact He.
Qed.





(** X15: with a ceiling of zero or less the loop body never runs: the
    fetcher raises the retries-exhausted error without a single request. *)
Theorem no_attempt_without_retries
    unicode_upper user_tag server clan_tag api_token max_retries
    backoff_factor timeout (tr : list event) :
  (max_retries <= 0)%Z ->
  fetch_clan_data_auto_tables unicode_upper (Some user_tag) server
      (Some clan_tag) api_token max_retries backoff_factor timeout tr
  = (Raises exhausted, tr).
Proof.
  intros Hmax. rewrite fetch_enters_loop. unfold Py.range1.
  replace (Z.to_nat max_retries) with 0%nat by lia. reflexivity.
Qed.

(** Every run from the empty trace, taken apart. *)
Lemma fetch_run_inv unicode_upper user_tag server clan_tag api_token
    max_retries backoff_factor timeout res tr :
  fetch_clan_data_auto_tables unicode_upper (Some user_tag) server
      (Some clan_tag) api_token max_retries backoff_factor timeout [] = (res, tr) ->
  let url := request_url unicode_upper clan_tag in
  let headers := request_headers api_token in
  let retries k := retry_trace url headers timeout backoff_factor
                               (Py.range1 (Z.of_nat k)) in
  exists k,
    (k = Z.to_nat max_retries /\ res = Raises exhausted /\ tr = retries k)
    \/ ((k < Z.to_nat max_retries)%nat
        /\ tr = retries k ++ [HttpGet url headers timeout]
        /\ ((exists e, res = Raises e)
            \/ exists r data,
                 res = Returns (dataframes (_flatten_json data root None))
                 /\ server k = Responds r
                 /\ status_code r = 200%Z
                 /\ json_body r = JsonValue data)).
Proof.
  rewrite fetch_enters_loop. intros Hrun url headers retries.
  apply for_each_cases in Hrun.
  destruct Hrun as [done [rest [Hsplit Hcases]]].
  destruct (range1_prefix _ _ _ Hsplit) as [Hdone Hlen].
  exists (List.length done). unfold retries. rewrite <- Hdone.
  destruct Hcases as [[-> [-> ->]]|[Hne [-> Hres]]].
  - left. simpl in Hlen. rewrite Nat.add_0_r in Hlen. repeat split. exact Hlen.
  - right. split; [destruct rest; [congruence|simpl in Hlen; rewrite <- Hlen; apply Nat.lt_add_pos_r, Nat.lt_0_succ]|].
    split; [reflexivity|exact Hres].
Qed.

(** X16: whatever the server does, the trace of a run is a number k of
    requests each followed by its sleep base^attempt, then at most one
    more request with nothing after it; the fetcher never issues more than
    [max_retries] requests and never sleeps before its first request or
    twice in a row. *)
Theorem fetch_trace_shape
    unicode_upper user_tag server clan_tag api_token max_retries
    backoff_factor timeout :
  let url := request_url unicode_upper clan_tag in
  let headers := request_headers api_token in
  let tr := snd (fetch_clan_data_auto_tables unicode_upper user_tag server
                   (Some clan_tag) api_token max_retries backoff_factor
                   timeout []) in
  (exists k,
     tr = retry_trace url headers timeout backoff_factor (Py.range1 (Z.of_nat k))
     \/ tr = retry_trace url headers timeout backoff_factor (Py.range1 (Z.of_nat k))
             ++ [HttpGet url headers timeout])
  /\ (gets tr <= Z.to_nat max_retries)%nat
  /\ (sleeps tr <= gets tr)%nat.
Proof.
  intros url headers tr. subst tr.
  destruct user_tag as [u|].
  - destruct (fetch_clan_data_auto_tables _ _ _ _ _ _ _ _ _) as [res tr] eqn:Hrun.
    apply fetch_run_inv in Hrun. fold url headers in Hrun.
    destruct Hrun as [k [[Hk [_ ->]]|[Hk [-> _]]]]; cbn [snd].
    + split; [exists k; now left|].
      rewrite gets_retry_trace, sleeps_retry_trace, range1_of_nat_length. lia.
    + split; [exists k; now right|].
      rewrite gets_app, gets_retry_trace, range1_of_nat_length.
      unfold sleeps. rewrite filter_app, length_app.
      fold (sleeps (retry_trace url headers timeout backoff_factor
                                (Py.range1 (Z.of_nat k)))).
      rewrite sleeps_retry_trace, range1_of_nat_length.
      change (gets [HttpGet url headers timeout]) with 1%nat. simpl. lia.
  - simpl. split; [exists 0%nat; now left|]. split; [apply Nat.le_0_l|reflexivity].
Qed.

(** X17: the fetcher returns only after a 200 response with a JSON body,
    and what it returns is the datasets of that body flattened, none of
    them empty; its last action is that request. *)
Theorem returned_tables_come_from_a_200
    unicode_upper user_tag server clan_tag api_token max_retries
    backoff_factor timeout (dfs : Py.dict dataframe) (tr : list event) :
  fetch_clan_data_auto_tables unicode_upper user_tag server
      (Some clan_tag) api_token max_retries backoff_factor timeout []
  = (Returns dfs, tr) ->
  let url := request_url unicode_upper clan_tag in
  let headers := request_headers api_token in
  exists k r data,
    (k < Z.to_nat max_retries)%nat
    /\ server k = Responds r /\ status_code r = 200%Z
    /\ json_body r = JsonValue data
    /\ dfs = dataframes (_flatten_json data root None)
    /\ tr = retry_trace url headers timeout backoff_factor (Py.range1 (Z.of_nat k))
            ++ [HttpGet url headers timeout]
    /\ Forall (fun t => df_empty (snd t) = false) dfs.
Proof.
  intros Hrun url headers. destruct user_tag as [u|]; [|discriminate].
  apply fetch_run_inv in Hrun.
  destruct Hrun as [k [[_ [Hres _]]|[Hk [-> [[e Hres]|[r [data [Hres Hrest]]]]]]]];
    try discriminate.
  inversion Hres; subst. exists k, r, data.
  destruct Hrest as [Hs [H200 Hj]]. repeat split; trivial.
  apply dataframes_not_empty, flatten_json_filled.
Qed.

(* ================================================================== *)
(** * The entry point: [getnewData] (lines 145-157) *)

Section EntryPoint.

Variable unicode_upper : N -> pystr.

(** The module-level values of lines 14-16. *)
Variables API_TOKEN CLAN_TAG USER_TAG : option pystr.

Variable server : nat -> get_outcome.

(** The run of the program: the outcome, the trace of the fetcher, and
    what the writer does to the file system.  An exception of the fetcher
    leaves [getnewData] before the writer is called. *)
Definition getnewData : result unit * list event * list writer_event :=
  match fetch_clan_data_auto_tables unicode_upper USER_TAG server
          CLAN_TAG API_TOKEN default_max_retries default_backoff_factor
          default_timeout [] with
  | (Returns tbls, tr) =>
      (Returns tt, tr, save_tables_to_csv tbls (Py.lit "download") false)
  | (Raises e, tr) => (Raises e, tr, [])
  end.

End EntryPoint.

(** X18: whenever the program completes, the fetcher has received a 200
    response with a JSON body, and the writer has created the directory
    "download" and written, in the order of the flattened tables, exactly
    one file download/<safe name>.csv per table, without index column; no
    table is skipped. *)
Theorem completed_run_writes_every_table
    unicode_upper API_TOKEN CLAN_TAG USER_TAG server
    (tr : list event) (files : list writer_event) :
  getnewData unicode_upper API_TOKEN CLAN_TAG USER_TAG server
  = (Returns tt, tr, files) ->
  exists k r data,
    server k = Responds r /\ status_code r = 200%Z
    /\ json_body r = JsonValue data
    /\ files
       = MakeDirs (Py.lit "download")
         :: map (fun t => ToCsv (Py.lit "download/" +++ safe_name (fst t)
                                 +++ Py.lit ".csv")
                                (DataFrame (snd t)) false)
                (_flatten_json data root None).
Proof.
  unfold getnewData. intros Hrun.
  destruct (fetch_clan_data_auto_tables _ _ _ _ _ _ _ _ _) as [[dfs|e] tr0] eqn:Hf;
    [|discriminate].
  inversion Hrun; subst. clear Hrun.
  destruct CLAN_TAG as [tag|]; [|destruct USER_TAG; discriminate].
  destruct USER_TAG as [u|]; [|discriminate].
  apply fetch_run_inv in Hf.
  destruct Hf as [k [[_ [Hres _]]|[Hk [_ [[e Hres]|[r [data [Hres Hrest]]]]]]]];
    try discriminate.
  inversion Hres; subst. exists k, r, data.
  destruct Hrest as [Hs [H200 Hj]]. repeat split; trivial.
  unfold save_tables_to_csv. f_equal.
  pose proof (flatten_json_filled data root) as Hfilled.
  rewrite dataframes_map.
  - rewrite map_map. apply map_ext_in. intros [n rows] Hin. cbn [fst snd].
    rewrite save_table_not_empty.
    + reflexivity.
    + rewrite Forall_forall in Hfilled.
      exact (DataFrame_not_empty (n, rows) (Hfilled _ Hin)).
  - rewrite flatten_json_appends. apply append_all_NoDup. constructor.
Qed.

(** X19: when [CLAN_TAG] or [USER_TAG] is missing from the environment the
    program ends with an [AttributeError] before any request, and the
    writer is never called. *)
Theorem missing_tag_stops_the_program
    unicode_upper API_TOKEN CLAN_TAG USER_TAG server :
  CLAN_TAG = None \/ USER_TAG = None ->
  getnewData unicode_upper API_TOKEN CLAN_TAG USER_TAG server
  = (Raises (AttributeError
               (Py.lit "'NoneType' object has no attribute 'replace'")),
     [], []).
Proof.
  intros [-> | ->]; unfold getnewData.
  - reflexivity.
  - destruct CLAN_TAG; reflexivity.
Qed.

(* ------------------------------------------------------------------ *)
(** ** Sample runs, continued *)

(** A rate limit, a network error, a server error, a 200 whose body is not
    JSON for [requests], and server errors from then on. *)
Definition sample_mixed_failures (i : nat) : get_outcome :=
  match i with
  | 0%nat => Responds (sample_response 429 (JsonRaises OtherException))
  | 1%nat => GetRaises RequestException
  | 2%nat => Responds (sample_response 503 (JsonRaises OtherException))
  | 3%nat => Responds (sample_response 200 (JsonRaises RequestException))
  | _ => Responds (sample_response 500 (JsonRaises OtherException))
  end.

(** A network error, then a 200 with the sample clan. *)
Definition sample_recovers (i : nat) : get_outcome :=
  match i with
  | 0%nat => GetRaises RequestException
  | _ => Responds (sample_response 200 (JsonValue sample_clan))
  end.

Definition sample_retries (attempts : Z) : list event :=
  retry_trace (request_url (fun c => [c]) (Py.lit "#2pp"))
              (request_headers (Some (Py.lit "token")))
              default_timeout default_backoff_factor (Py.range1 attempts).

Lemma transient_failures_exhaust_retries_witness :
  sample_fetch sample_mixed_failures (Py.lit "#2pp")
  = (Raises exhausted, sample_retries 5).
Proof.
  apply (transient_failures_exhaust_retries (fun c => [c]) (Py.lit "#USER")
           sample_mixed_failures (Py.lit "#2pp") (Some (Py.lit "token"))
           default_max_retries default_backoff_factor default_timeout).
  - reflexivity.
  - intros i Hi. do 5 (destruct i as [|i]; [reflexivity|]).
    simpl in Hi. lia.
Defined.

Lemma success_after_transient_failures_witness :
  sample_fetch sample_recovers (Py.lit "#2pp")
  = (Returns
       [(Py.lit "root",
         {| df_columns := [Py.lit "tag"; Py.lit "members"];
            df_records := [[(Py.lit "tag", JStr (Py.lit "#2PP"));
                            (Py.lit "members", JInt 47)]] |})],
     [sample_get "2PP"; Sleep ((3 # 2) ^ 1); sample_get "2PP"]).
Proof.
  apply (success_after_transient_failures (fun c => [c]) (Py.lit "#USER")
           sample_recovers (Py.lit "#2pp") (Some (Py.lit "token"))
           default_max_retries default_backoff_factor default_timeout
           1%nat (sample_response 200 (JsonValue sample_clan)) sample_clan);
    try reflexivity.
  - simpl. lia.
  - intros i Hi. destruct i as [|i]; [reflexivity|lia].
Defined.

Lemma foreign_exception_is_not_retried_witness :
  sample_fetch (fun _ => GetRaises OtherException) (Py.lit "#2pp")
  = (Raises OtherException, [sample_get "2PP"]).
Proof.
  apply (foreign_exception_is_not_retried (fun c => [c]) (Py.lit "#USER")
           (fun _ => GetRaises OtherException) (Py.lit "#2pp")
           (Some (Py.lit "token"))
           default_max_retries default_backoff_factor default_timeout
           0%nat OtherException).
  - simpl. lia.
  - reflexivity.
  - intros i Hi. inversion Hi.
  - split; [reflexivity|left; reflexivity].
Defined.



Lemma no_attempt_without_retries_witness :
  fetch_clan_data_auto_tables (fun c => [c]) (Some (Py.lit "#USER"))
    sample_rate_limited (Some (Py.lit "#2pp")) (Some (Py.lit "token"))
    0 default_backoff_factor default_timeout []
  = (Raises exhausted, []).
Proof.
  apply (no_attempt_without_retries (fun c => [c]) (Py.lit "#USER")
           sample_rate_limited (Py.lit "#2pp") (Some (Py.lit "token"))
           0 default_backoff_factor default_timeout []).
  lia.
Defined.

Lemma returned_tables_come_from_a_200_witness :
  exists k r data,
    (k < Z.to_nat default_max_retries)%nat
    /\ sample_recovers k = Responds r /\ status_code r = 200%Z
    /\ json_body r = JsonValue data
    /\ dataframes (_flatten_json sample_clan root None)
       = dataframes (_flatten_json data root None)
    /\ sample_retries 1 ++ [sample_get "2PP"]
       = retry_trace (request_url (fun c => [c]) (Py.lit "#2pp"))
                     (request_headers (Some (Py.lit "token")))
                     default_timeout default_backoff_factor
                     (Py.range1 (Z.of_nat k))
         ++ [HttpGet (request_url (fun c => [c]) (Py.lit "#2pp"))
                     (request_headers (Some (Py.lit "token"))) default_timeout]
    /\ Forall (fun t => df_empty (snd t) = false)
              (dataframes (_flatten_json sample_clan root None)).
Proof.
  apply (returned_tables_come_from_a_200 (fun c => [c]) (Some (Py.lit "#USER"))
           sample_recovers (Py.lit "#2pp") (Some (Py.lit "token"))
           default_max_retries default_backoff_factor default_timeout
           (dataframes (_flatten_json sample_clan root None))
           (sample_retries 1 ++ [sample_get "2PP"])).
  reflexivity.
Defined.

Lemma completed_run_writes_every_table_witness :
  exists k r data,
    sample_recovers k = Responds r /\ status_code r = 200%Z
    /\ json_body r = JsonValue data
    /\ [MakeDirs (Py.lit "download");
        ToCsv (Py.lit "download/root.csv")
              (DataFrame [[(Py.lit "tag", JStr (Py.lit "#2PP"));
                           (Py.lit "members", JInt 47)]]) false]
       = MakeDirs (Py.lit "download")
         :: map (fun t => ToCsv (Py.lit "download/" +++ safe_name (fst t)
                                 +++ Py.lit ".csv")
                                (DataFrame (snd t)) false)
                (_flatten_json data root None).
Proof.
  apply (completed_run_writes_every_table (fun c => [c])
           (Some (Py.lit "token")) (Some (Py.lit "#2pp")) (Some (Py.lit "#USER"))
           sample_recovers (sample_retries 1 ++ [sample_get "2PP"])).
  reflexivity.
Defined.

Lemma missing_tag_stops_the_program_witness :
  getnewData (fun c => [c]) (Some (Py.lit "token")) None (Some (Py.lit "#USER"))
             sample_rate_limited
  = (Raises (AttributeError
               (Py.lit "'NoneType' object has no attribute 'replace'")),
     [], []).
Proof.
  apply (missing_tag_stops_the_program (fun c => [c]) (Some (Py.lit "token"))
           None (Some (Py.lit "#USER")) sample_rate_limited).
  left. reflexivity.
Defined.

Lemma flatten_json_empty_iff_witness :
  _flatten_json (JList [JInt 1; JList []; JDict [(Py.lit "a", JList [])]])
                root None = [].
Proof.
  apply (proj2 (flatten_json_empty_iff
                  (JList [JInt 1; JList []; JDict [(Py.lit "a", JList [])]]) root)).
  intros ks d H.
  inversion H as [|items x ks' d' Hx Hd|]; subst.
  destruct Hx as [<-|[<-|[<-|[]]]].
  - inversion Hd.
  - inversion Hd as [|items x ks' d' Hx' _|]; subst. destruct Hx'.
  - inversion Hd as [d0| |items k v ks' d' Hkv _ Hd']; subst; [reflexivity|].
    destruct Hkv as [[= <- <-]|[]].
    inversion Hd' as [|items x ks'' d'' Hx' _|]; subst. destruct Hx'.
Defined.

Lemma safe_name_unchanged_iff_witness :
  safe_name (Py.lit "root.a-b_1") = Py.lit "root.a-b_1".
Proof.
  apply (proj2 (safe_name_unchanged_iff (Py.lit "root.a-b_1"))).
  repeat constructor; unfold kept_char; simpl; lia.
Defined.
